(** * AmazonBookLinkGen: a shallow embedding of [main.py]

    The script enriches a table of books with a link to a retail site.
    This development embeds its functions one by one, under the names they
    have in the source, and proves the properties of the specification.

    Conventions of the embedding.
    - Text is [string].  A character [ascii] stands for the code point of
      the same number (U+0000 to U+00FF); the classes [\d], [\s] and
      [A-Z0-9] of the regular expressions and the whitespace of
      [str.strip] are written out for those code points.
    - A table cell is [option string]: [None] is a missing value (the one
      [pd.isna] detects) and [Some s] a value whose [str(...)] is [s].
    - Effects (pauses, requests, console lines) are recorded in a trace
      that is threaded through a state and exception monad; the network
      is a function telling what the n-th physical request answers. *)

From Stdlib Require Import String Ascii List Bool Arith NArith ZArith Lia.
Import ListNotations.

Local Open Scope string_scope.
Local Open Scope list_scope.

(* ================================================================== *)
(** * Text primitives *)
(* ================================================================== *)

Module Text.

(** Code point of a character. *)
Definition code (c : ascii) : N := N_of_ascii c.

Definition in_range (lo hi : N) (c : ascii) : bool :=
  (N.leb lo (code c) && N.leb (code c) hi)%bool.

(** [\d] of a [str] pattern on the code points of this development:
    below U+0100 its only members are '0'..'9'.  The class in full, with
    the decimal digits of every script, is [Unicode.is_decimal]. *)
Definition is_digit (c : ascii) : bool := in_range 48 57 c.

(** [A-Z] *)
Definition is_upper (c : ascii) : bool := in_range 65 90 c.

(** [a-z] *)
Definition is_lower (c : ascii) : bool := in_range 97 122 c.

(** [[A-Z0-9]] *)
Definition is_upper_or_digit (c : ascii) : bool :=
  (is_upper c || is_digit c)%bool.

(** [\s] of a [str] pattern and the whitespace of [str.strip()]:
    TAB, LF, VT, FF, CR, the separators U+001C..U+001F, SPACE,
    NEL (U+0085) and NBSP (U+00A0). *)
Definition is_space (c : ascii) : bool :=
  (in_range 9 13 c || in_range 28 32 c
   || N.eqb (code c) 133 || N.eqb (code c) 160)%bool.

Definition is_hyphen (c : ascii) : bool := Ascii.eqb c "-"%char.

(** [str.lower()] on one character: A-Z and the accented capitals
    U+00C0..U+00DE (the sign U+00D7 apart) move up by 32. *)
Definition lower_char (c : ascii) : ascii :=
  if (is_upper c
      || (in_range 192 222 c && negb (N.eqb (code c) 215)))%bool
  then ascii_of_N (code c + 32)
  else c.

Fixpoint lower (s : string) : string :=
  match s with
  | EmptyString => EmptyString
  | String c r => String (lower_char c) (lower r)
  end.

Definition is_empty (s : string) : bool :=
  match s with EmptyString => true | String _ _ => false end.

(** [str.lstrip()] *)
Fixpoint lstrip (s : string) : string :=
  match s with
  | EmptyString => EmptyString
  | String c r => if is_space c then lstrip r else s
  end.

(** [str.rstrip()] *)
Fixpoint rstrip (s : string) : string :=
  match s with
  | EmptyString => EmptyString
  | String c r =>
      let r' := rstrip r in
      if (is_space c && is_empty r')%bool then EmptyString
      else String c r'
  end.

(** [str.strip()] *)
Definition strip (s : string) : string := rstrip (lstrip s).

(** [sub in s] *)
Fixpoint contains (sub s : string) : bool :=
  (String.prefix sub s
   || match s with
      | EmptyString => false
      | String _ r => contains sub r
      end)%bool.

(** [s.endswith(suffix)] *)
Fixpoint endswith (s suffix : string) : bool :=
  (String.eqb s suffix
   || match s with
      | EmptyString => false
      | String _ r => endswith r suffix
      end)%bool.

(** [re.sub(r'\s+', ' ', s)]: every maximal run of whitespace becomes
    one space.  [in_run] tells that the previous character was
    whitespace, whose run has already been replaced. *)
Fixpoint collapse_spaces (in_run : bool) (s : string) : string :=
  match s with
  | EmptyString => EmptyString
  | String c r =>
      if is_space c
      then (if in_run then collapse_spaces true r
            else String " " (collapse_spaces true r))
      else String c (collapse_spaces false r)
  end.

(** [re.sub(r'[-\s]', '', s)] *)
Fixpoint remove_hyphens_spaces (s : string) : string :=
  match s with
  | EmptyString => EmptyString
  | String c r =>
      if (is_hyphen c || is_space c)%bool then remove_hyphens_spaces r
      else String c (remove_hyphens_spaces r)
  end.

(** All the characters of [s] satisfy [p]. *)
Fixpoint all_chars (p : ascii -> bool) (s : string) : bool :=
  match s with
  | EmptyString => true
  | String c r => (p c && all_chars p r)%bool
  end.

(** [" ".join(parts)] is [String.concat " " parts]. *)
Definition join (sep : string) (parts : list string) : string :=
  String.concat sep parts.

(** ** [urllib.parse.quote(s)] with its defaults ([safe='/'], UTF-8) *)

Definition hex_digit (n : N) : ascii :=
  if N.ltb n 10 then ascii_of_N (48 + n) else ascii_of_N (55 + n).

(** ["%XX"], upper-case hexadecimal, for one byte. *)
Definition percent_byte (b : N) : string :=
  String "%" (String (hex_digit (N.div b 16))
                     (String (hex_digit (N.modulo b 16)) EmptyString)).

(** The characters [quote] never escapes: letters, digits, [_.-~] and
    the default safe character [/]. *)
Definition is_unreserved (c : ascii) : bool :=
  (is_upper c || is_lower c || is_digit c
   || Ascii.eqb c "_" || Ascii.eqb c "." || Ascii.eqb c "-"
   || Ascii.eqb c "~" || Ascii.eqb c "/")%bool.

(** A code point below U+0080 is one UTF-8 byte, one from U+0080 to
    U+00FF is the two bytes [0xC0 + n/64] and [0x80 + n mod 64]. *)
Definition quote_char (c : ascii) : string :=
  if is_unreserved c then String c EmptyString
  else if N.ltb (code c) 128 then percent_byte (code c)
  else (percent_byte (192 + N.div (code c) 64)
        ++ percent_byte (128 + N.modulo (code c) 64))%string.

Fixpoint quote (s : string) : string :=
  match s with
  | EmptyString => EmptyString
  | String c r => (quote_char c ++ quote r)%string
  end.

End Text.

(* ================================================================== *)
(** * Cleaning and identifier validation *)
(* ================================================================== *)

(** A table cell: [None] is a missing value (NaN). *)
Definition cell := option string.

(** [pd.isna(x)] *)
Definition isna (x : cell) : bool :=
  match x with None => true | Some _ => false end.

(** [str(x)]; a missing value prints as [nan]. *)
Definition str (x : cell) : string :=
  match x with None => "nan" | Some s => s end.

(** [clean_text]:
    [if pd.isna(text): return ""]
    [return re.sub(r'\s+', ' ', str(text).strip())] *)
Definition clean_text (text : cell) : string :=
  if isna text then ""
  else Text.collapse_spaces false (Text.strip (str text)).

(** Consume [n] characters of class [p] at the head of [s]; the rest of
    [s] when they are there. *)
Fixpoint match_class (p : ascii -> bool) (n : nat) (s : string)
  : option string :=
  match n with
  | O => Some s
  | S n' =>
      match s with
      | EmptyString => None
      | String c r => if p c then match_class p n' r else None
      end
  end.

(** [$] without [re.MULTILINE]: the end of the text, or just before a
    line feed that ends it. *)
Definition at_end (s : string) : bool :=
  (String.eqb s "" || String.eqb s (String (ascii_of_N 10) ""))%bool.

(** [re.match(r'^\d{9}[\dX]$', s)] as a truth value. *)
Definition re_match_isbn10 (s : string) : bool :=
  match match_class Text.is_digit 9 s with
  | Some (String c r) =>
      ((Text.is_digit c || Ascii.eqb c "X") && at_end r)%bool
  | _ => false
  end.

(** [re.match(r'^\d{13}$', s)] as a truth value. *)
Definition re_match_isbn13 (s : string) : bool :=
  match match_class Text.is_digit 13 s with
  | Some r => at_end r
  | None => false
  end.

(** [is_valid_isbn] on the texts of this development, whose characters
    lie below U+0100; [Unicode.is_valid_isbn] is the function on any
    text, and the two agree where both are defined. *)
Definition is_valid_isbn (isbn : string) : bool :=
  let isbn := Text.remove_hyphens_spaces isbn in
  if Nat.eqb (String.length isbn) 10 then re_match_isbn10 isbn
  else if Nat.eqb (String.length isbn) 13 then re_match_isbn13 isbn
  else false.

(* ================================================================== *)
(** * Identifier validation on any text *)
(* ================================================================== *)

(** The validator is the one function of the script whose answer depends
    on characters beyond U+00FF: on a [str], [\d] matches the decimal
    digits of every script.  This module embeds it on texts in full. *)
Module Unicode.

(** A Python [str]: the list of its code points. *)
Definition text := list N.

(** The text of a [string] of this development. *)
Definition of_string (s : string) : text :=
  map N_of_ascii (list_ascii_of_string s).

(** The digit zero of every decimal system of Unicode 14.0 (category
    Nd); the digits one to nine of a system follow its zero.  ASCII
    comes first, then Arabic-Indic, Extended Arabic-Indic, NKo,
    Devanagari and so on up to the fullwidth digits (65296) and the
    systems of the supplementary planes. *)
Definition decimal_zeros : list N :=
  [48; 1632; 1776; 1984; 2406; 2534; 2662; 2790; 2918; 3046; 3174; 3302;
   3430; 3558; 3664; 3792; 3872; 4160; 4240; 6112; 6160; 6470; 6608; 6784;
   6800; 6992; 7088; 7232; 7248; 42528; 43216; 43264; 43472; 43504; 43600;
   44016; 65296; 66720; 68912; 69734; 69872; 69942; 70096; 70384; 70736;
   70864; 71248; 71360; 71472; 71904; 72016; 72784; 73040; 73120; 92768;
   92864; 93008; 120782; 120792; 120802; 120812; 120822; 123200; 123632;
   125264; 130032]%N.

Definition between (lo hi c : N) : bool := (N.leb lo c && N.leb c hi)%bool.

(** [\d] of a [str] pattern: a decimal digit of any script. *)
Definition is_decimal (c : N) : bool :=
  existsb (fun zero => between zero (zero + 9) c) decimal_zeros.

(** [\s] of a [str] pattern: the whitespace of Unicode. *)
Definition is_space (c : N) : bool :=
  (between 9 13 c || between 28 32 c || N.eqb c 133 || N.eqb c 160
   || N.eqb c 5760 || between 8192 8202 c || N.eqb c 8232 || N.eqb c 8233
   || N.eqb c 8239 || N.eqb c 8287 || N.eqb c 12288)%bool.

(** The hyphen-minus, U+002D. *)
Definition is_hyphen (c : N) : bool := N.eqb c 45.

(** [re.sub(r'[-\s]', '', isbn)] *)
Definition remove_hyphens_spaces (t : text) : text :=
  filter (fun c => negb (is_hyphen c || is_space c)) t.

(** Consume [n] characters of class [p] at the head of [t]. *)
Fixpoint match_class (p : N -> bool) (n : nat) (t : text) : option text :=
  match n with
  | O => Some t
  | S n' =>
      match t with
      | [] => None
      | c :: r => if p c then match_class p n' r else None
      end
  end.

(** [$]: the end of the text, or just before a line feed that ends it. *)
Definition at_end (t : text) : bool :=
  match t with
  | [] => true
  | [c] => N.eqb c 10
  | _ => false
  end.

(** [re.match(r'^\d{9}[\dX]$', t)] as a truth value; X is U+0058. *)
Definition re_match_isbn10 (t : text) : bool :=
  match match_class is_decimal 9 t with
  | Some (c :: r) => ((is_decimal c || N.eqb c 88) && at_end r)%bool
  | _ => false
  end.

(** [re.match(r'^\d{13}$', t)] as a truth value. *)
Definition re_match_isbn13 (t : text) : bool :=
  match match_class is_decimal 13 t with
  | Some r => at_end r
  | None => false
  end.

(** [is_valid_isbn] on any text. *)
Definition is_valid_isbn (isbn : text) : bool :=
  let isbn := remove_hyphens_spaces isbn in
  if Nat.eqb (List.length isbn) 10 then re_match_isbn10 isbn
  else if Nat.eqb (List.length isbn) 13 then re_match_isbn13 isbn
  else false.

End Unicode.

(* ================================================================== *)
(** * The parsed page and its selectors *)
(* ================================================================== *)

Module Html.

(** The tree [BeautifulSoup(text, 'html.parser')] builds: a tag with
    its name, its [class] list, its other attributes and its children,
    or a run of text. *)
#[warnings="-register-all"]
Inductive node : Type :=
| Tag (name : string) (classes : list string)
      (attrs : list (string * string)) (children : list node)
| NavigableString (text : string).

Definition document := list node.

(** What a selector looks at in a tag. *)
Definition head : Type := (string * list string * list (string * string)).

(** A compound selector [tag.class1.class2[attr="value"]]. *)
Record compound := {
  sel_tag : string;
  sel_classes : list string;
  sel_attrs : list (string * string)
}.

(** Compound selectors joined by the descendant combinator (a space),
    in the order they are written. *)
Definition selector := list compound.

Fixpoint attr_get (key : string) (attrs : list (string * string))
  : option string :=
  match attrs with
  | [] => None
  | (k, v) :: more => if String.eqb k key then Some v else attr_get key more
  end.

Definition has_class (classes : list string) (c : string) : bool :=
  existsb (String.eqb c) classes.

Definition has_attr (attrs : list (string * string))
           (kv : string * string) : bool :=
  match attr_get (fst kv) attrs with
  | Some v => String.eqb v (snd kv)
  | None => false
  end.

Definition matches_compound (c : compound) (h : head) : bool :=
  let '(name, classes, attrs) := h in
  (String.eqb (sel_tag c) name
   && forallb (has_class classes) (sel_classes c)
   && forallb (has_attr attrs) (sel_attrs c))%bool.

(** [needed], nearest first, are found in this order among the
    ancestors [anc], nearest first. *)
Fixpoint match_ancestors (needed : list compound) (anc : list head)
  : bool :=
  match needed with
  | [] => true
  | c :: more =>
      (fix find (up : list head) : bool :=
         match up with
         | [] => false
         | a :: up' =>
             ((matches_compound c a && match_ancestors more up')
              || find up')%bool
         end) anc
  end.

Definition matches (sel : selector) (anc : list head) (h : head) : bool :=
  match rev sel with
  | [] => false
  | subject :: outer =>
      (matches_compound subject h && match_ancestors outer anc)%bool
  end.

(** The tags below (and including) [n] that [sel] matches, in document
    order; [anc] are the ancestors of [n], nearest first. *)
Fixpoint select_from (sel : selector) (anc : list head) (n : node)
  : list node :=
  match n with
  | NavigableString _ => []
  | Tag name classes attrs children =>
      let h := (name, classes, attrs) in
      (if matches sel anc h then [n] else [])
      ++ flat_map (select_from sel (h :: anc)) children
  end.

(** [soup.select(sel)] *)
Definition select (sel : selector) (soup : document) : list node :=
  flat_map (select_from sel []) soup.

(** [link.get(key, default)] *)
Definition get (link : node) (key default : string) : string :=
  match link with
  | Tag _ _ attrs _ =>
      match attr_get key attrs with Some v => v | None => default end
  | NavigableString _ => default
  end.

Definition tag_only (name : string) : compound :=
  {| sel_tag := name; sel_classes := []; sel_attrs := [] |}.

Definition tag_classes (name : string) (cs : list string) : compound :=
  {| sel_tag := name; sel_classes := cs; sel_attrs := [] |}.

End Html.

(** The [selectors] list of [get_first_product_link], in its order:
    [a.a-link-normal.s-no-outline], [a.a-link-normal.a-text-normal],
    [div.s-result-item h2 a],
    [div[data-component-type="s-search-result"] h2 a],
    [div.s-result-item a.a-link-normal]. *)
Definition selectors : list Html.selector :=
  [ [Html.tag_classes "a" ["a-link-normal"; "s-no-outline"]];
    [Html.tag_classes "a" ["a-link-normal"; "a-text-normal"]];
    [Html.tag_classes "div" ["s-result-item"]; Html.tag_only "h2";
     Html.tag_only "a"];
    [ {| Html.sel_tag := "div"; Html.sel_classes := [];
         Html.sel_attrs := [("data-component-type", "s-search-result")] |};
      Html.tag_only "h2"; Html.tag_only "a"];
    [Html.tag_classes "div" ["s-result-item"];
     Html.tag_classes "a" ["a-link-normal"]] ].

(* ================================================================== *)
(** * The product pattern *)
(* ================================================================== *)

(** The rest of [s] after the literal [p], when [s] starts with it. *)
Fixpoint strip_prefix (p s : string) : option string :=
  match p with
  | EmptyString => Some s
  | String a p' =>
      match s with
      | EmptyString => None
      | String b s' => if Ascii.eqb a b then strip_prefix p' s' else None
      end
  end.

(** [([A-Z0-9]{10})] at the head of [s]: the group it captures. *)
Definition take_code (s : string) : option string :=
  match match_class Text.is_upper_or_digit 10 s with
  | Some _ => Some (String.substring 0 10 s)
  | None => None
  end.

(** One branch of the alternation followed by [/([A-Z0-9]{10})]. *)
Definition product_tail (branch s : string) : option string :=
  match strip_prefix branch s with
  | Some r =>
      match strip_prefix "/" r with
      | Some r' => take_code r'
      | None => None
      end
  | None => None
  end.

(** The pattern [/(dp|gp/product)/([A-Z0-9]{10})] tried at the head of
    [s]; the branches of the alternation are tried from the left. *)
Definition match_product_at (s : string) : option string :=
  match strip_prefix "/" s with
  | Some r =>
      match product_tail "dp" r with
      | Some c => Some c
      | None => product_tail "gp/product" r
      end
  | None => None
  end.

(** [re.search(r'/(dp|gp/product)/([A-Z0-9]{10})', href)]: the leftmost
    position at which the pattern matches; the result is [group(2)]. *)
Fixpoint re_search_product (href : string) : option string :=
  match match_product_at href with
  | Some c => Some c
  | None =>
      match href with
      | EmptyString => None
      | String _ r => re_search_product r
      end
  end.

(* ================================================================== *)
(** * Effects: exceptions, the trace and the network *)
(* ================================================================== *)

(** The exceptions the script meets: a column that is not in the row,
    anything a request raises (connection errors and timeouts are kinds
    of [RequestException], and so is the one [make_request] raises on a
    503), and the refusal of the table to take a frame as a column. *)
Inductive exn : Type :=
| KeyError (key : string)
| RequestException (msg : string)
| ValueError (msg : string).

Inductive result (A : Type) : Type :=
| Returned (a : A)
| Raised (e : exn).
Arguments Returned {A} a.
Arguments Raised {A} e.

Definition result_bind {A B} (r : result A) (k : A -> result B)
  : result B :=
  match r with
  | Returned a => k a
  | Raised e => Raised e
  end.

Notation "'let?' x ':=' r 'in' k" := (result_bind r (fun x => k))
  (at level 10, x name, r at level 100, k at level 200).

(** What [session.get] hands back: [status_code], the final [url] after
    redirections, and the tree [html.parser] builds from [text]. *)
Record response := {
  status_code : Z;
  url : string;
  soup_of_text : Html.document
}.

(** The lines the script prints, one constructor per [print]. *)
Inductive message : Type :=
| MsgReceived503
| MsgProcessingBook (number : nat) (title : string)
| MsgFoundValidISBN (isbn : string)
| MsgISBNLinkValid
| MsgISBNLinkInvalid
| MsgISBNError
| MsgSearching (title : string)
| MsgSearchFailed (status : Z)
| MsgFoundProductLink (link : string)
| MsgNoValidProductLink
| MsgErrorGettingLink (e : exn)
| MsgLoaded (records : nat)
| MsgGenerating
| MsgSaving
| MsgErrorProcessingFile (e : exn).

(** What the script does to the outside, in the order it does it. *)
Inductive event : Type :=
| Sleep (lo hi : Z)      (* [sleep(random.uniform(lo, hi))] *)
| Get (url : string)     (* [session.get(url, timeout=10)]  *)
| Backoff (cap : Z)      (* the decorator's pause, drawn in [0, cap] *)
| Print (m : message).

Definition trace := list event.

Definition is_get (e : event) : bool :=
  match e with Get _ => true | _ => false end.

(** Number of physical requests a trace holds. *)
Definition requests_made (t : trace) : nat :=
  List.length (filter is_get t).

Inductive outcome : Type :=
| Answers (r : response)
| Fails (why : string).

(** The outside world: what the [n]-th physical request of the run
    (counted from 0) yields when it asks for [url]. *)
Definition network := nat -> string -> outcome.

(** A computation that reads and extends the trace and either returns or
    raises. *)
Definition M (A : Type) : Type := trace -> result A * trace.

Definition ret {A} (a : A) : M A := fun t => (Returned a, t).

Definition raise {A} (e : exn) : M A := fun t => (Raised e, t).

Definition bind {A B} (c : M A) (k : A -> M B) : M B :=
  fun t =>
    match c t with
    | (Returned a, t') => k a t'
    | (Raised e, t') => (Raised e, t')
    end.

Definition emit (e : event) : M unit := fun t => (Returned tt, t ++ [e]).

Definition print (m : message) : M unit := emit (Print m).

Definition lift {A} (r : result A) : M A := fun t => (r, t).

(** [try: body  except ...: handler] for a handler that catches all. *)
Definition try_except {A} (body : M A) (handler : exn -> M A) : M A :=
  fun t =>
    match body t with
    | (Returned a, t') => (Returned a, t')
    | (Raised e, t') => handler e t'
    end.

Notation "x <- c ;; k" := (bind c (fun x => k))
  (at level 61, c at next level, right associativity).
Notation "c ;; k" := (bind c (fun _ => k))
  (at level 61, right associativity).

(* ================================================================== *)
(** * The fetcher *)
(* ================================================================== *)

Section Fetcher.

Variable net : network.

(** [session.get(url, timeout=10)] *)
Definition session_get (url : string) : M response :=
  fun t =>
    match net (requests_made t) url with
    | Answers r => (Returned r, t ++ [Get url])
    | Fails why => (Raised (RequestException why), t ++ [Get url])
    end.

(** The body of [make_request], without its decorator. *)
Definition make_request_body (url : string) : M response :=
  emit (Sleep 2 7) ;;
  response <- session_get url ;;
  if Z.eqb (status_code response) 503 then
    print MsgReceived503 ;;
    emit (Sleep 10 15) ;;
    raise (RequestException "503 error")
  else ret response.

(** The loop of [backoff.on_exception(backoff.expo, ..., max_tries)]:
    call the target; when it raises and the tries are used up, raise
    again; otherwise pause (the [k]-th value of [expo] is [2^k], and
    the pause is drawn below it) and call again.  [left] is
    [max_tries] minus the number of calls made so far, this one
    included. *)
Fixpoint retry_loop {A} (left k : nat) (target : M A) : M A :=
  fun t =>
    match target t with
    | (Returned a, t') => (Returned a, t')
    | (Raised e, t') =>
        match left with
        | O => (Raised e, t')
        | S left' =>
            retry_loop left' (S k) target (t' ++ [Backoff (2 ^ Z.of_nat k)])
        end
    end.

Definition on_exception {A} (max_tries : nat) (target : M A) : M A :=
  retry_loop (max_tries - 1) 0 target.

(** [make_request], decorated with [max_tries=5]. *)
Definition make_request (url : string) : M response :=
  on_exception 5 (make_request_body url).

End Fetcher.

(* ================================================================== *)
(** * Rows and the query builder *)
(* ================================================================== *)

(** A row handed to [process_book]: its label [row.name] and its cells
    by column name, in the order of the columns. *)
Record Series := {
  row_name : nat;
  entries : list (string * cell)
}.

Fixpoint lookup (key : string) (kvs : list (string * cell)) : option cell :=
  match kvs with
  | [] => None
  | (k, v) :: more => if String.eqb k key then Some v else lookup key more
  end.

(** [row[key]] *)
Definition getitem (row : Series) (key : string) : result cell :=
  match lookup key (entries row) with
  | Some v => Returned v
  | None => Raised (KeyError key)
  end.

(** [not pd.isna(x) and str(x).strip()] as a truth value. *)
Definition filled (x : cell) : bool :=
  (negb (isna x) && negb (Text.is_empty (Text.strip (str x))))%bool.

Definition is_nil {A} (l : list A) : bool :=
  match l with [] => true | _ :: _ => false end.

(** [create_search_url] *)
Definition create_search_url (row : Series) : result string :=
  let search_parts : list string := [] in
  let? title := getitem row "Book Title" in
  let search_parts :=
    if filled title then search_parts ++ [clean_text title]
    else search_parts in
  let? author := getitem row "Author" in
  let search_parts :=
    if filled author then search_parts ++ [clean_text author]
    else search_parts in
  let? yr := getitem row "Yr" in
  let search_parts :=
    if filled yr then search_parts ++ [str yr] else search_parts in
  let? ed := getitem row "Ed" in
  let search_parts :=
    if filled ed then
      let edition := Text.strip (str ed) in
      if Text.endswith (Text.lower edition) "th"
      then search_parts ++ [(edition ++ " edition")%string]
      else search_parts
    else search_parts in
  if is_nil search_parts then Returned ""
  else
    let search_query := Text.join " " search_parts in
    let encoded_query := Text.quote search_query in
    Returned ("https://www.amazon.com/s?k=" ++ encoded_query
              ++ "&i=stripbooks")%string.

(* ================================================================== *)
(** * The extractor *)
(* ================================================================== *)

(** The canonical link built from a product code. *)
Definition clean_url_of (product_id : string) : string :=
  ("https://www.amazon.com/dp/" ++ product_id)%string.

(** [for link in product_links: ...]: [Some clean_url] when the loop
    returns from the function, [None] when it runs to its end. *)
Fixpoint links_loop (product_links : list Html.node) : option string :=
  match product_links with
  | [] => None
  | link :: rest =>
      let href := Html.get link "href" "" in
      if (Text.contains "/dp/" href || Text.contains "/gp/product/" href)%bool
      then
        match re_search_product href with
        | Some product_id => Some (clean_url_of product_id)
        | None => links_loop rest
        end
      else links_loop rest
  end.

(** [for selector in selectors: product_links = soup.select(selector) ...] *)
Fixpoint selector_loop (soup : Html.document) (sels : list Html.selector)
  : option string :=
  match sels with
  | [] => None
  | selector :: rest =>
      match links_loop (Html.select selector soup) with
      | Some clean_url => Some clean_url
      | None => selector_loop soup rest
      end
  end.

Section Orchestrator.

Variable net : network.

(** [get_first_product_link] *)
Definition get_first_product_link (search_url book_title : string)
  : M string :=
  try_except
    (print (MsgSearching book_title) ;;
     response <- make_request net search_url ;;
     if negb (Z.eqb (status_code response) 200) then
       print (MsgSearchFailed (status_code response)) ;;
       ret search_url
     else
       let soup := soup_of_text response in
       match selector_loop soup selectors with
       | Some clean_url =>
           print (MsgFoundProductLink clean_url) ;;
           ret clean_url
       | None =>
           print MsgNoValidProductLink ;;
           ret search_url
       end)
    (fun e =>
       print (MsgErrorGettingLink e) ;;
       ret search_url).

(** The direct attempt of [process_book] (its first [if]):
    [Some direct_url] when the function returns there, [None] when
    control reaches the search. *)
Definition try_isbn (row : Series) : M (option string) :=
  upc <- lift (getitem row "UPC") ;;
  if filled upc then
    let isbn := Text.strip (str upc) in
    if is_valid_isbn isbn then
      print (MsgFoundValidISBN isbn) ;;
      let direct_url := ("https://www.amazon.com/dp/" ++ isbn)%string in
      try_except
        (response <- make_request net direct_url ;;
         if (Z.eqb (status_code response) 200
             && Text.contains "dp/" (url response))%bool
         then
           print MsgISBNLinkValid ;;
           ret (Some direct_url)
         else
           print MsgISBNLinkInvalid ;;
           ret None)
        (fun _ =>
           print MsgISBNError ;;
           ret None)
    else ret None
  else ret None.

(** The search of [process_book] (its last four lines). *)
Definition try_search (row : Series) (book_title : string) : M string :=
  search_url <- lift (create_search_url row) ;;
  if negb (Text.is_empty search_url)
  then get_first_product_link search_url book_title
  else ret "".

(** [process_book] *)
Definition process_book (row : Series) : M string :=
  title <- lift (getitem row "Book Title") ;;
  let book_title := clean_text title in
  print (MsgProcessingBook (row_name row + 1) book_title) ;;
  direct <- try_isbn row ;;
  match direct with
  | Some direct_url => ret direct_url
  | None => try_search row book_title
  end.

End Orchestrator.

(* ================================================================== *)
(** * The table *)
(* ================================================================== *)

(** The loaded table: the names of its columns and, for every record in
    the order of the file, its cells in the order of the columns. *)
Record DataFrame := {
  columns : list string;
  records : list (list cell)
}.

(** The row the table hands to the function of [apply(..., axis=1)]. *)
Definition row_of (cols : list string) (i : nat) (cells : list cell)
  : Series :=
  {| row_name := i; entries := combine cols cells |}.

Fixpoint index_of (key : string) (cols : list string) : option nat :=
  match cols with
  | [] => None
  | c :: more =>
      if String.eqb c key then Some 0
      else match index_of key more with
           | Some i => Some (S i)
           | None => None
           end
  end.

Fixpoint replace_nth {A} (i : nat) (v : A) (l : list A) : list A :=
  match l, i with
  | [], _ => []
  | _ :: r, O => v :: r
  | x :: r, S i' => x :: replace_nth i' v r
  end.

(** [df[key] = values]: the column [key] takes the values when the table
    has it, and is added after the last column when it has not. *)
Definition setitem (df : DataFrame) (key : string) (values : list cell)
  : DataFrame :=
  match index_of key (columns df) with
  | Some i =>
      {| columns := columns df;
         records := map (fun rv => replace_nth i (snd rv) (fst rv))
                        (combine (records df) values) |}
  | None =>
      {| columns := columns df ++ [key];
         records := map (fun rv => fst rv ++ [snd rv])
                        (combine (records df) values) |}
  end.

(** What [df.apply(process_book, axis=1)] hands back: the column of the
    links when the table has rows; a copy of the table itself when it
    has none. *)
Inductive applied : Type :=
| AppliedLinks (links : list string)
| AppliedFrame (copy : DataFrame).

(** [df[key] = value] for what [apply] handed back.  A column of links
    is set as [setitem] tells.  A frame is taken only when it has
    exactly one column, whose cells are then set; with any other number
    of columns the assignment raises [ValueError]. *)
Definition setitem_applied (df : DataFrame) (key : string) (value : applied)
  : result DataFrame :=
  match value with
  | AppliedLinks links => Returned (setitem df key (map Some links))
  | AppliedFrame copy =>
      if Nat.eqb (List.length (columns copy)) 1
      then Returned (setitem df key (map (hd None) (records copy)))
      else Raised (ValueError "Columns must be same length as key")
  end.

Section Batch.

Variable net : network.

(** The loop [apply] runs over the rows of a table that has rows: one
    call of [process_book] per row, from label [i] on, in the order of
    the table; the first exception ends it. *)
Fixpoint apply_rows (cols : list string) (i : nat)
         (rows : list (list cell)) : M (list string) :=
  match rows with
  | [] => ret []
  | cells :: more =>
      link <- process_book net (row_of cols i cells) ;;
      links <- apply_rows cols (S i) more ;;
      ret (link :: links)
  end.

(** [df.apply(process_book, axis=1)].  On a table without rows pandas
    does not run the loop: it tries the function once on a row of
    missing values without label (the call raises while the first line
    to print is built, before anything is printed or fetched, and the
    exception is dropped) and hands back a copy of the table. *)
Definition df_apply (df : DataFrame) : M applied :=
  match records df with
  | [] => ret (AppliedFrame df)
  | _ :: _ =>
      links <- apply_rows (columns df) 0 (records df) ;;
      ret (AppliedLinks links)
  end.

(** [process_books_csv], from the loaded table to the table it saves:
    [Some out] is what [to_csv] writes, [None] is a run that the outer
    handler ended without writing.  The summary printed after the file
    is saved is left out. *)
Definition process_books_csv (df : DataFrame) : trace -> option DataFrame * trace :=
  fun t =>
    let body : M DataFrame :=
      print (MsgLoaded (List.length (records df))) ;;
      print MsgGenerating ;;
      value <- df_apply df ;;
      df' <- lift (setitem_applied df "Amazon_Link" value) ;;
      print MsgSaving ;;
      ret df' in
    match body t with
    | (Returned out, t') => (Some out, t')
    | (Raised e, t') => (None, t' ++ [Print (MsgErrorProcessingFile e)])
    end.

End Batch.

(* ================================================================== *)
(** * Vocabulary of the specification *)
(* ================================================================== *)

(** ** Identifiers *)

(** Nine digits and then a digit or the letter X. *)
Definition isbn10_shape (r : string) : Prop :=
  exists d c,
    r = (d ++ String c "")%string
    /\ String.length d = 9
    /\ Text.all_chars Text.is_digit d = true
    /\ (Text.is_digit c = true \/ c = "X"%char).

(** Thirteen digits. *)
Definition isbn13_shape (r : string) : Prop :=
  String.length r = 13 /\ Text.all_chars Text.is_digit r = true.

(** ** Queries *)

Definition part_if (b : bool) (s : string) : list string :=
  if b then [s] else [].

(** The tokens of the query, field by field. *)
Definition query_parts (title author yr ed : cell) : list string :=
  part_if (filled title) (clean_text title)
  ++ part_if (filled author) (clean_text author)
  ++ part_if (filled yr) (str yr)
  ++ part_if (filled ed
              && Text.endswith (Text.lower (Text.strip (str ed))) "th")%bool
             (Text.strip (str ed) ++ " edition")%string.

(** The address of the search for a list of tokens; no address when
    there is no token. *)
Definition search_url_of (parts : list string) : string :=
  match parts with
  | [] => ""
  | _ :: _ =>
      ("https://www.amazon.com/s?k=" ++ Text.quote (String.concat " " parts)
       ++ "&i=stripbooks")%string
  end.

Definition required_columns : list string :=
  ["Book Title"; "Author"; "Yr"; "Ed"; "UPC"].

Definition has_column (row : Series) (key : string) : bool :=
  match lookup key (entries row) with Some _ => true | None => false end.

(** The row has the five columns the script reads. *)
Definition has_columns (row : Series) : bool :=
  forallb (has_column row) required_columns.

(** ** Extraction *)

(** The href holds one of the two product markers. *)
Definition has_marker (href : string) : bool :=
  (Text.contains "/dp/" href || Text.contains "/gp/product/" href)%bool.

Definition is_marker (m : string) : Prop :=
  m = "/dp/" \/ m = "/gp/product/".

Definition hrefs_of (links : list Html.node) : list string :=
  map (fun link => Html.get link "href" "") links.

(** The link an href gives, when it gives one: it holds a marker and the
    pattern finds a code in it. *)
Definition acceptable (href : string) : option string :=
  if has_marker href
  then option_map clean_url_of (re_search_product href)
  else None.

Fixpoint first_some {A B} (f : A -> option B) (l : list A) : option B :=
  match l with
  | [] => None
  | x :: r => match f x with Some b => Some b | None => first_some f r end
  end.

(** The hrefs of the candidates of every selector, selector after
    selector and in document order under each. *)
Definition candidates (soup : Html.document) (sels : list Html.selector)
  : list string :=
  flat_map (fun sel => hrefs_of (Html.select sel soup)) sels.

(** Extraction as the specification words it: the first selector that
    yields any candidate decides alone, and the result comes from the
    first of its hrefs that holds a marker. *)
Definition first_pattern_wins (soup : Html.document) : option string :=
  match find (fun c => negb (is_nil c))
             (map (fun sel => Html.select sel soup) selectors) with
  | None => None
  | Some links =>
      match find has_marker (hrefs_of links) with
      | None => None
      | Some href => option_map clean_url_of (re_search_product href)
      end
  end.

(** A well-formed canonical link: the fixed prefix and a code of ten
    characters, capitals or digits. *)
Definition canonical_link (link : string) : Prop :=
  exists code,
    link = clean_url_of code
    /\ String.length code = 10
    /\ Text.all_chars Text.is_upper_or_digit code = true.

(** The pattern as the specification words it: a lowercase letter in
    the path segment that follows the marker (the characters up to the
    next slash, or to the end) forbids a code. *)
Definition lowercase_segment_blocks : Prop :=
  forall m segment rest c,
    is_marker m ->
    Text.contains "/" segment = false ->
    (rest = "" \/ exists r, rest = String "/" r) ->
    In c (list_ascii_of_string segment) ->
    Text.is_lower c = true ->
    re_search_product (m ++ segment ++ rest) = None.

(** ** Fetching *)

(** An attempt that the decorator retries: the request raised, or it
    answered 503. *)
Definition attempt_fails (o : outcome) : bool :=
  match o with
  | Fails _ => true
  | Answers r => Z.eqb (status_code r) 503
  end.

(** What one call of the body of [make_request] gives. *)
Definition attempt_result (o : outcome) : result response :=
  match o with
  | Answers r =>
      if Z.eqb (status_code r) 503
      then Raised (RequestException "503 error")
      else Returned r
  | Fails why => Raised (RequestException why)
  end.

(** What one call of the body of [make_request] adds to the trace. *)
Definition attempt_events (url : string) (o : outcome) : list event :=
  [Sleep 2 7; Get url]
  ++ match o with
     | Answers r =>
         if Z.eqb (status_code r) 503
         then [Print MsgReceived503; Sleep 10 15]
         else []
     | Fails _ => []
     end.

(** The trace of [m] failed attempts, each followed by the pause of the
    decorator; [n] is the number of the first request and [k] the
    exponent of the first pause. *)
Fixpoint retries_events (net : network) (url : string) (n k m : nat)
  : list event :=
  match m with
  | O => []
  | S m' =>
      attempt_events url (net n url) ++ [Backoff (2 ^ Z.of_nat k)]
      ++ retries_events net url (S n) (S k) m'
  end.

(** Every request of the trace asks for [url]. *)
Definition gets_only (url : string) (es : list event) : Prop :=
  forall u, In (Get u) es -> u = url.

(** ** Tables *)

(** Every record has one cell per column and the columns the script
    reads are there. *)
Definition well_formed (df : DataFrame) : Prop :=
  (forall c, In c required_columns -> In c (columns df))
  /\ (forall cells, In cells (records df) ->
        List.length cells = List.length (columns df)).

(** A handler of the script caught an exception: one of the two lines
    that report it was printed. *)
Definition reports_exception (e : event) : bool :=
  match e with
  | Print MsgISBNError => true
  | Print (MsgErrorGettingLink _) => true
  | _ => false
  end.

(** ** The two paths of the orchestrator *)

(** The address [process_book] builds from a valid identifier. *)
Definition direct_url_of (isbn : string) : string :=
  ("https://www.amazon.com/dp/" ++ isbn)%string.

(** The identifier of the row is filled and has a valid shape. *)
Definition usable_identifier (upc : cell) : bool :=
  (filled upc && is_valid_isbn (Text.strip (str upc)))%bool.

(** What the direct attempt decides from the outcome of its fetch, and
    the line it prints. *)
Definition direct_outcome (direct_url : string) (r : result response)
  : option string * message :=
  match r with
  | Raised _ => (None, MsgISBNError)
  | Returned resp =>
      if (Z.eqb (status_code resp) 200
          && Text.contains "dp/" (url resp))%bool
      then (Some direct_url, MsgISBNLinkValid)
      else (None, MsgISBNLinkInvalid)
  end.

(** What the search decides from the outcome of its fetch, and the line
    it prints. *)
Definition search_outcome (search_url : string) (r : result response)
  : string * message :=
  match r with
  | Raised e => (search_url, MsgErrorGettingLink e)
  | Returned resp =>
      if negb (Z.eqb (status_code resp) 200)
      then (search_url, MsgSearchFailed (status_code resp))
      else
        match selector_loop (soup_of_text resp) selectors with
        | Some clean_url => (clean_url, MsgFoundProductLink clean_url)
        | None => (search_url, MsgNoValidProductLink)
        end
  end.

(** The direct path as the specification words it: the link is accepted
    exactly when the fetch answers 200 and the final address holds a
    product marker. *)
Definition direct_accept_by_marker : Prop :=
  forall net row upc t,
    getitem row "UPC" = Returned upc ->
    usable_identifier upc = true ->
    let isbn := Text.strip (str upc) in
    (exists t', try_isbn net row t = (Returned (Some (direct_url_of isbn)), t'))
    <->
    (exists resp,
        fst (make_request net (direct_url_of isbn)
                          (t ++ [Print (MsgFoundValidISBN isbn)]))
        = Returned resp
        /\ status_code resp = 200%Z
        /\ has_marker (url resp) = true).

(** The record boundary as the specification words it: processing a
    record returns, and returns the empty link whenever a handler caught
    an exception on the way. *)
Definition exceptions_give_empty_link : Prop :=
  forall net row t,
    has_columns row = true ->
    exists link t',
      process_book net row t = (Returned link, t')
      /\ (existsb reports_exception (skipn (List.length t) t') = true ->
          link = "").

(** The batch as the specification words it: one row out per row in, in
    the same order, each with one cell more, under one column more. *)
Definition link_column_appended : Prop :=
  forall net df t,
    well_formed df ->
    exists out t',
      process_books_csv net df t = (Some out, t')
      /\ columns out = columns df ++ ["Amazon_Link"]
      /\ List.length (records out) = List.length (records df)
      /\ forall i cells,
           nth_error (records df) i = Some cells ->
           exists link, nth_error (records out) i = Some (cells ++ [link]).

(* ================================================================== *)
(** * Sample inputs *)
(* ================================================================== *)

(** A row from its five cells, without further columns. *)
Definition book (i : nat) (title author yr ed upc : cell) : Series :=
  row_of required_columns i [title; author; yr; ed; upc].

Definition hobbit : Series :=
  book 0 (Some "The Hobbit") (Some "Tolkien") (Some "1997") (Some "4th") None.

Definition blank_book : Series := book 0 None (Some "") (Some "  ") None None.

Definition anchor (classes : list string) (href : string) : Html.node :=
  Html.Tag "a" classes [("href", href)] [].

(** A result page whose first selector finds a link that is no product
    and whose third selector finds a product under a result heading. *)
Definition sample_page : Html.document :=
  [Html.Tag "html" [] []
     [Html.Tag "body" [] []
        [anchor ["a-link-normal"; "s-no-outline"] "/help";
         Html.Tag "div" ["s-result-item"] []
           [Html.Tag "h2" [] []
              [anchor [] "/Title/dp/B00ABCDEFG/ref=sr_1"]]]]].

Definition answer (status : Z) (final_url : string) (page : Html.document)
  : outcome :=
  Answers {| status_code := status; url := final_url; soup_of_text := page |}.

(** A site that is overloaded for the first two requests of the run and
    then serves [sample_page]. *)
Definition net_503_503_200 : network :=
  fun n u =>
    match n with
    | 0 | 1 => answer 503 u []
    | _ => answer 200 u sample_page
    end.

(** A site that cannot be reached. *)
Definition net_down : network := fun _ _ => Fails "connection refused".

Definition effective_java : Series :=
  book 0 (Some "Effective Java") (Some "Bloch") None None
       (Some "0134685997").

Definition dune : Series := book 0 (Some "Dune") None None None None.

(** A site that answers every request with a page whose final address
    is written the long way. *)
Definition net_gp_redirect : network :=
  fun _ _ => answer 200 "https://www.amazon.com/gp/product/0134685997" [].

(** A table that already has a column named like the one the script
    writes. *)
Definition rerun_table : DataFrame :=
  {| columns := required_columns ++ ["Amazon_Link"];
     records := [[None; None; None; None; None; Some "kept"]] |}.

Definition two_books : DataFrame :=
  {| columns := required_columns;
     records := [[Some "The Hobbit"; Some "Tolkien"; Some "1997";
                  Some "4th"; None];
                 [None; None; None; None; None]] |}.

(* ================================================================== *)
(** * Further vocabulary *)
(* ================================================================== *)

(** ** Cleaned text *)

(** The text is empty or begins with a character that is no whitespace. *)
Definition starts_clean (s : string) : bool :=
  match s with
  | EmptyString => true
  | String c _ => negb (Text.is_space c)
  end.

(** The text does not end with whitespace; [prev] tells whether the
    character before it was whitespace. *)
Fixpoint ends_clean (prev : bool) (s : string) : bool :=
  match s with
  | EmptyString => negb prev
  | String c r => ends_clean (Text.is_space c) r
  end.

(** Every whitespace character of the text is a space that stands alone
    and is followed by something; [prev] tells whether the character
    before the text was whitespace. *)
Fixpoint single_spaced (prev : bool) (s : string) : bool :=
  match s with
  | EmptyString => negb prev
  | String c r =>
      if Text.is_space c
      then (Ascii.eqb c " " && negb prev && single_spaced true r)%bool
      else single_spaced false r
  end.

(** Words separated by single spaces, nothing before and nothing after. *)
Definition tidy (s : string) : bool :=
  (starts_clean s && single_spaced false s)%bool.

(** ** Identifiers and addresses *)

(** The characters of an encoded query: those that are never escaped,
    and the percent sign of the escapes. *)
Definition url_safe (c : ascii) : bool :=
  (Text.is_unreserved c || Ascii.eqb c "%")%bool.

(** A title with characters that mean something in an address. *)
Definition ampersand_book : Series :=
  book 0 (Some "Dungeons & Dragons #1?") None None None None.

(** ** Pacing and budgets *)

(** Every request of the trace comes right after the pause drawn between
    2 and 7 seconds. *)
Definition paced (es : list event) : Prop :=
  forall pre u post,
    es = pre ++ Get u :: post -> exists pre', pre = pre' ++ [Sleep 2 7].

(** The computation only adds to the trace, and what it adds holds at
    most [n] requests, all of them paced. *)
Definition uses {A} (n : nat) (c : M A) : Prop :=
  forall t,
  exists added,
    snd (c t) = t ++ added /\ requests_made added <= n /\ paced added.

(** ** The summary of a run *)

(** [len(df[df['Amazon_Link'].str.len() > 0])] and the like: how many
    links of the column satisfy [p]. *)
Definition count_links (p : string -> bool) (links : list string) : Z :=
  Z.of_nat (List.length (filter p links)).

(** [total_books], [books_with_links] and [books_with_product_links] of
    [process_books_csv], from the column of links. *)
Definition total_books (links : list string) : Z :=
  Z.of_nat (List.length links).

Definition books_with_links (links : list string) : Z :=
  count_links (fun link => Nat.ltb 0 (String.length link)) links.

Definition books_with_product_links (links : list string) : Z :=
  count_links (Text.contains "/dp/") links.

(** The three numbers the summary prints after the total: direct product
    links, search links, failures. *)
Definition summary_counts (links : list string) : Z * Z * Z :=
  (books_with_product_links links,
   (books_with_links links - books_with_product_links links)%Z,
   (total_books links - books_with_links links)%Z).

(** [failed_books]: the titles, as they are printed, of the rows whose
    link is empty. *)
Definition failed_books (titles : list cell) (links : list string)
  : list string :=
  map (fun tl => str (fst tl))
      (filter (fun tl => Nat.eqb (String.length (snd tl)) 0)
              (combine titles links)).

(** ** Further sample inputs *)

(** A table without the column of titles. *)
Definition untitled_table : DataFrame :=
  {| columns := ["Author"; "Yr"; "Ed"; "UPC"];
     records := [[Some "Tolkien"; Some "1997"; None; None]] |}.

(** ** Where the requests go *)

(** The event is no request, or a request for an address of the site. *)
Definition on_site (e : event) : Prop :=
  match e with
  | Get u => String.prefix "https://www.amazon.com/" u = true
  | _ => True
  end.

(** The computation only adds to the trace, and only events that
    satisfy [P]. *)
Definition adds {A} (P : event -> Prop) (c : M A) : Prop :=
  forall t, exists added, snd (c t) = t ++ added /\ Forall P added.

(** ** Identifiers on any text *)

(** Ten characters: nine digits and then a digit or the letter X
    (U+0058), for a given reading of "digit". *)
Definition shape10 (digit : N -> bool) (r : Unicode.text) : bool :=
  (Nat.eqb (List.length r) 10
   && forallb digit (firstn 9 r)
   && (digit (nth 9 r 0%N) || N.eqb (nth 9 r 0%N) 88))%bool.

(** Thirteen characters, all digits. *)
Definition shape13 (digit : N -> bool) (r : Unicode.text) : bool :=
  (Nat.eqb (List.length r) 13 && forallb digit r)%bool.



(** The characters a valid identifier is made of. *)
Definition isbn_char (c : N) : bool :=
  (Unicode.is_decimal c || N.eqb c 88 || Unicode.is_hyphen c
   || Unicode.is_space c)%bool.


(** ** Cleaned text and the suffix of the edition *)

(** [s.split()]: the words of a text, its maximal runs of characters
    that are no whitespace, from left to right. *)
Fixpoint split_ws (s : string) : list string :=
  match s with
  | EmptyString => []
  | String c r =>
      if Text.is_space c then split_ws r
      else if (starts_clean r && negb (Text.is_empty r))%bool
           then match split_ws r with
                | w :: ws => String c w :: ws
                | [] => [String c ""]
                end
           else String c "" :: split_ws r
  end.

(** The text ends with the letters t and h, each in either case. *)
Definition ends_with_th (e : string) : Prop :=
  exists pre a b,
    e = (pre ++ String a (String b ""))%string
    /\ (a = "t"%char \/ a = "T"%char)
    /\ (b = "h"%char \/ b = "H"%char).

(** The row of the specification as a careless hand would type it:
    blanks around and inside the title, a line feed in it, and the
    edition in capitals. *)
Definition messy_hobbit : Series :=
  book 0 (Some ("  The   " ++ String "010" " Hobbit ")%string)
       (Some " Tolkien") (Some "1997") (Some " 4TH ") None.

(** A table with the columns the script reads and no record. *)
Definition empty_table : DataFrame :=
  {| columns := required_columns; records := [] |}.

(* ================================================================== *)
(** * Facts about text *)
(* ================================================================== *)

Section TextFacts.

Lemma length_append (a b : string) :
  String.length (a ++ b) = String.length a + String.length b.
Proof. induction a as [|c a IH]; simpl; [reflexivity | now rewrite IH]. Qed.

Lemma append_empty_r (a : string) : (a ++ "")%string = a.
Proof. induction a as [|c a IH]; simpl; [reflexivity | now rewrite IH]. Qed.

Lemma append_assoc (a b c : string) :
  ((a ++ b) ++ c)%string = (a ++ (b ++ c))%string.
Proof. induction a as [|x a IH]; simpl; [reflexivity | now rewrite IH]. Qed.

Lemma length_zero_empty (s : string) : String.length s = 0 -> s = "".
Proof. destruct s; simpl; [reflexivity | discriminate]. Qed.

Lemma all_chars_append p (a b : string) :
  Text.all_chars p (a ++ b) = (Text.all_chars p a && Text.all_chars p b)%bool.
Proof.
  induction a as [|c a IH]; simpl; [reflexivity |].
  rewrite IH. now rewrite andb_assoc.
Qed.

(** [match_class] succeeds exactly on a head of [n] characters of the
    class, and leaves what follows. *)
Lemma match_class_Some p n s r :
  match_class p n s = Some r ->
  exists d, s = (d ++ r)%string
            /\ String.length d = n /\ Text.all_chars p d = true.
Proof.
  revert s. induction n as [|n IH]; intros s H; simpl in H.
  - exists "". inversion H. now subst.
  - destruct s as [|c s]; [discriminate |].
    destruct (p c) eqn:Hc; [| discriminate].
    destruct (IH _ H) as (d & -> & Hl & Ha).
    exists (String c d). simpl. now rewrite Hc, Hl, Ha.
Qed.

Lemma match_class_append p d r :
  Text.all_chars p d = true ->
  match_class p (String.length d) (d ++ r) = Some r.
Proof.
  induction d as [|c d IH]; simpl; intros H; [reflexivity |].
  apply andb_true_iff in H as [Hc Hd]. rewrite Hc. now apply IH.
Qed.

End TextFacts.

(* ================================================================== *)
(** * The identifier validator *)
(* ================================================================== *)

Lemma re_match_isbn10_shape (s : string) :
  String.length s = 10 -> (re_match_isbn10 s = true <-> isbn10_shape s).
Proof.
  intros Hlen. unfold re_match_isbn10, isbn10_shape. split.
  - destruct (match_class Text.is_digit 9 s) as [[|c r]|] eqn:Hm;
      try discriminate.
    intros H. apply andb_true_iff in H as [Hc _].
    destruct (match_class_Some _ _ _ _ Hm) as (d & -> & Hl & Ha).
    rewrite length_append in Hlen. simpl in Hlen.
    assert (r = "") as -> by (apply length_zero_empty; lia).
    exists d, c. repeat split; auto.
    apply orb_true_iff in Hc as [Hc | Hc]; [now left | right].
    now apply Ascii.eqb_eq in Hc.
  - intros (d & c & -> & Hl & Ha & Hc).
    rewrite <- Hl, (match_class_append _ _ _ Ha).
    apply andb_true_iff. split; [| reflexivity].
    apply orb_true_iff. destruct Hc as [Hc | ->]; [now left | now right].
Qed.

Lemma re_match_isbn13_shape (s : string) :
  String.length s = 13 -> (re_match_isbn13 s = true <-> isbn13_shape s).
Proof.
  intros Hlen. unfold re_match_isbn13, isbn13_shape. split.
  - destruct (match_class Text.is_digit 13 s) as [r|] eqn:Hm;
      [| discriminate].
    intros _. destruct (match_class_Some _ _ _ _ Hm) as (d & -> & Hl & Ha).
    rewrite length_append in Hlen.
    assert (r = "") as -> by (apply length_zero_empty; lia).
    rewrite append_empty_r. auto.
  - intros [_ Ha].
    rewrite <- (append_empty_r s) at 1. rewrite <- Hlen.
    now rewrite (match_class_append _ _ _ Ha).
Qed.

Lemma isbn10_shape_length r : isbn10_shape r -> String.length r = 10.
Proof.
  intros (d & c & -> & Hl & _). rewrite length_append, Hl. reflexivity.
Qed.

(** On the texts of this development, [is_valid_isbn] holds exactly
    when, hyphens and whitespace removed, the text is nine of '0'..'9'
    followed by one of them or X, or thirteen of them. *)
Theorem is_valid_isbn_iff :
  (forall isbn,
      is_valid_isbn isbn = true <->
      isbn10_shape (Text.remove_hyphens_spaces isbn)
      \/ isbn13_shape (Text.remove_hyphens_spaces isbn))
  /\ is_valid_isbn "0-13-468599-7" = true
  /\ is_valid_isbn "12345" = false.
Proof.
  split; [| split; reflexivity].
  intros isbn. unfold is_valid_isbn.
  set (r := Text.remove_hyphens_spaces isbn).
  destruct (Nat.eqb (String.length r) 10) eqn:H10.
  - apply Nat.eqb_eq in H10. rewrite (re_match_isbn10_shape _ H10).
    split; [now left |]. intros [H | [H _]]; [exact H | lia].
  - apply Nat.eqb_neq in H10.
    destruct (Nat.eqb (String.length r) 13) eqn:H13.
    + apply Nat.eqb_eq in H13. rewrite (re_match_isbn13_shape _ H13).
      split; [now right |]. intros [H | H]; [| exact H].
      apply isbn10_shape_length in H. lia.
    + apply Nat.eqb_neq in H13. split; [discriminate |].
      intros [H | [H _]]; [apply isbn10_shape_length in H |]; lia.
Qed.

(* ================================================================== *)
(** * The identifier validator on any text *)
(* ================================================================== *)

Lemma unicode_match_class_spec (p : N -> bool) (n : nat) (t : Unicode.text) :
  Unicode.match_class p n t
  = if (Nat.leb n (List.length t) && forallb p (firstn n t))%bool
    then Some (skipn n t) else None.
Proof.
  revert t. induction n as [|n IH]; intros t; [reflexivity |].
  destruct t as [|c t]; [reflexivity |].
  cbn [Unicode.match_class firstn skipn forallb length Nat.leb].
  rewrite IH. destruct (p c); [reflexivity |].
  now rewrite andb_false_r.
Qed.

(** The two patterns say what the two shapes say. *)
Lemma unicode_re_match_isbn10 (r : Unicode.text) :
  List.length r = 10 ->
  Unicode.re_match_isbn10 r = shape10 Unicode.is_decimal r.
Proof.
  intros Hlen. unfold Unicode.re_match_isbn10, shape10.
  rewrite unicode_match_class_spec, Hlen.
  do 10 (destruct r as [|? r]; [discriminate |]).
  destruct r; [| discriminate].
  cbn [Nat.leb Nat.eqb andb skipn nth].
  destruct (forallb Unicode.is_decimal _); [| reflexivity].
  cbn [Unicode.at_end andb]. now rewrite andb_true_r.
Qed.

Lemma unicode_re_match_isbn13 (r : Unicode.text) :
  List.length r = 13 ->
  Unicode.re_match_isbn13 r = shape13 Unicode.is_decimal r.
Proof.
  intros Hlen. unfold Unicode.re_match_isbn13, shape13.
  rewrite unicode_match_class_spec, Hlen.
  replace (firstn 13 r) with r by (rewrite <- Hlen; symmetry; apply firstn_all).
  replace (skipn 13 r) with (@nil N) by (rewrite <- Hlen; symmetry; apply skipn_all).
  cbn [Nat.leb Nat.eqb andb].
  now destruct (forallb Unicode.is_decimal r).
Qed.

Lemma unicode_is_valid_isbn_shapes (isbn : Unicode.text) :
  Unicode.is_valid_isbn isbn
  = (shape10 Unicode.is_decimal (Unicode.remove_hyphens_spaces isbn)
     || shape13 Unicode.is_decimal (Unicode.remove_hyphens_spaces isbn))%bool.
Proof.
  unfold Unicode.is_valid_isbn.
  set (r := Unicode.remove_hyphens_spaces isbn).
  destruct (Nat.eqb (List.length r) 10) eqn:H10.
  - apply Nat.eqb_eq in H10. rewrite (unicode_re_match_isbn10 _ H10).
    unfold shape13. rewrite H10. cbn [Nat.eqb andb]. now rewrite orb_false_r.
  - unfold shape10 at 1. rewrite H10. cbn [andb orb].
    destruct (Nat.eqb (List.length r) 13) eqn:H13.
    + apply Nat.eqb_eq in H13. now apply unicode_re_match_isbn13.
    + unfold shape13. now rewrite H13.
Qed.













(* ================================================================== *)
(** * The query builder *)
(* ================================================================== *)

Lemma is_empty_rstrip (s : string) :
  Text.is_empty (Text.rstrip s) = Text.all_chars Text.is_space s.
Proof.
  induction s as [|c s IH]; simpl; [reflexivity |].
  rewrite <- IH.
  destruct (Text.is_space c), (Text.is_empty (Text.rstrip s)); reflexivity.
Qed.

Lemma all_space_lstrip (s : string) :
  Text.all_chars Text.is_space (Text.lstrip s)
  = Text.all_chars Text.is_space s.
Proof.
  induction s as [|c s IH]; simpl; [reflexivity |].
  destruct (Text.is_space c) eqn:Hc; simpl; [exact IH | now rewrite Hc].
Qed.

(** A text strips to nothing exactly when it is made of whitespace. *)
Lemma is_empty_strip (s : string) :
  Text.is_empty (Text.strip s) = Text.all_chars Text.is_space s.
Proof. unfold Text.strip. now rewrite is_empty_rstrip, all_space_lstrip. Qed.

(** A field counts when it is not missing and not blank. *)
Lemma filled_iff (x : cell) :
  filled x = true <->
  exists s, x = Some s /\ Text.all_chars Text.is_space s = false.
Proof.
  unfold filled. destruct x as [s|]; simpl.
  - rewrite is_empty_strip, negb_true_iff. split.
    + intros H. now exists s.
    + intros (s' & [= <-] & H). exact H.
  - split; [discriminate | intros (s & [=] & _)].
Qed.

Lemma create_search_url_parts (row : Series) (title author yr ed : cell) :
  getitem row "Book Title" = Returned title ->
  getitem row "Author" = Returned author ->
  getitem row "Yr" = Returned yr ->
  getitem row "Ed" = Returned ed ->
  create_search_url row
  = Returned (search_url_of (query_parts title author yr ed)).
Proof.
  intros Ht Ha Hy He. unfold create_search_url, query_parts.
  rewrite Ht, Ha, Hy, He. cbn [result_bind].
  destruct (filled title), (filled author), (filled yr), (filled ed);
    cbn [andb part_if app is_nil];
    try destruct (Text.endswith _ _); reflexivity.
Qed.

Lemma search_url_of_empty_iff (parts : list string) :
  search_url_of parts = "" <-> parts = [].
Proof.
  destruct parts; simpl; split; intros H; try reflexivity; discriminate.
Qed.

(* ================================================================== *)
(** * The product pattern *)
(* ================================================================== *)

Lemma strip_prefix_Some (p s r : string) :
  strip_prefix p s = Some r <-> s = (p ++ r)%string.
Proof.
  revert s. induction p as [|a p IH]; intros s; simpl.
  - split; [now intros [= ->] | now intros ->].
  - destruct s as [|b s]; [split; discriminate |].
    destruct (Ascii.eqb a b) eqn:Hab.
    + apply Ascii.eqb_eq in Hab as ->. rewrite IH.
      split; [now intros -> | now intros [= ->]].
    + apply Ascii.eqb_neq in Hab.
      split; [discriminate | intros [= <- _]; now elim Hab].
Qed.

Lemma substring_head (d r : string) :
  String.substring 0 (String.length d) (d ++ r) = d.
Proof.
  induction d as [|c d IH]; simpl.
  - destruct r; reflexivity.
  - now rewrite IH.
Qed.

Lemma take_code_Some (s c : string) :
  take_code s = Some c ->
  exists post, s = (c ++ post)%string
               /\ String.length c = 10
               /\ Text.all_chars Text.is_upper_or_digit c = true.
Proof.
  unfold take_code.
  destruct (match_class Text.is_upper_or_digit 10 s) as [r|] eqn:Hm;
    [| discriminate].
  destruct (match_class_Some _ _ _ _ Hm) as (d & -> & Hl & Ha).
  rewrite <- Hl, substring_head. intros [= <-]. now exists r.
Qed.

Lemma take_code_append (c post : string) :
  String.length c = 10 ->
  Text.all_chars Text.is_upper_or_digit c = true ->
  take_code (c ++ post) = Some c.
Proof.
  intros Hl Ha. unfold take_code.
  rewrite <- Hl, (match_class_append _ _ _ Ha).
  now rewrite substring_head.
Qed.

(** One character outside the class among the first [n] is enough for
    the class not to match [n] times. *)
Lemma match_class_bad p n s i c :
  i < n -> String.get i s = Some c -> p c = false ->
  match_class p n s = None.
Proof.
  revert s i. induction n as [|n IH]; intros s i Hi Hg Hc; [lia |].
  destruct s as [|a s]; [reflexivity |]. simpl.
  destruct i as [|i]; simpl in Hg.
  - injection Hg as ->. now rewrite Hc.
  - destruct (p a); [| reflexivity]. apply (IH s i); auto. lia.
Qed.

Lemma lower_not_upper_or_digit (c : ascii) :
  Text.is_lower c = true -> Text.is_upper_or_digit c = false.
Proof.
  unfold Text.is_lower, Text.is_upper_or_digit, Text.is_upper,
    Text.is_digit, Text.in_range.
  intros H. apply andb_true_iff in H as [H1 _]. apply N.leb_le in H1.
  apply orb_false_iff. split; apply andb_false_iff; right;
    apply N.leb_gt; lia.
Qed.

(** At a marker the pattern is decided by the ten characters after it. *)
Lemma match_product_at_marker (m rest : string) :
  is_marker m -> match_product_at (m ++ rest) = take_code rest.
Proof.
  intros [-> | ->]; cbn; destruct (take_code rest); reflexivity.
Qed.

Lemma match_product_at_Some (s c : string) :
  match_product_at s = Some c ->
  exists m post, is_marker m /\ s = (m ++ c ++ post)%string
                 /\ String.length c = 10
                 /\ Text.all_chars Text.is_upper_or_digit c = true.
Proof.
  unfold match_product_at, product_tail.
  destruct (strip_prefix "/" s) as [r|] eqn:H0; [| discriminate].
  apply strip_prefix_Some in H0 as ->.
  destruct (strip_prefix "dp" r) as [r1|] eqn:H1.
  - apply strip_prefix_Some in H1 as ->.
    destruct (strip_prefix "/" r1) as [r2|] eqn:H2.
    + apply strip_prefix_Some in H2 as ->.
      destruct (take_code r2) as [c'|] eqn:H3.
      * intros [= <-]. destruct (take_code_Some _ _ H3) as (post & -> & Hl & Ha).
        exists "/dp/", post. repeat split; auto. now left.
      * cbn. discriminate.
    + destruct r1 as [|x r1]; cbn; discriminate.
  - destruct (strip_prefix "gp/product" r) as [r1|] eqn:H2; [| discriminate].
    apply strip_prefix_Some in H2 as ->.
    destruct (strip_prefix "/" r1) as [r2|] eqn:H3; [| discriminate].
    apply strip_prefix_Some in H3 as ->.
    intros H. destruct (take_code_Some _ _ H) as (post & -> & Hl & Ha).
    exists "/gp/product/", post. repeat split; auto. now right.
Qed.

(** What the search finds is a code of ten capitals or digits that
    stands right after a marker. *)
Lemma re_search_product_Some (href c : string) :
  re_search_product href = Some c ->
  exists pre m post,
    is_marker m /\ href = (pre ++ m ++ c ++ post)%string
    /\ String.length c = 10
    /\ Text.all_chars Text.is_upper_or_digit c = true.
Proof.
  induction href as [|a href IH]; simpl.
  - discriminate.
  - destruct (match_product_at (String a href)) as [c'|] eqn:Hm.
    + intros [= <-].
      destruct (match_product_at_Some _ _ Hm) as (m & post & Hk & Heq & Hl & Ha).
      exists "", m, post. auto.
    + intros H. destruct (IH H) as (pre & m & post & Hk & -> & Hl & Ha).
      exists (String a pre), m, post. auto.
Qed.

Lemma re_search_product_unfold (href : string) :
  re_search_product href
  = match match_product_at href with
    | Some c => Some c
    | None => match href with
              | EmptyString => None
              | String _ r => re_search_product r
              end
    end.
Proof. destruct href; reflexivity. Qed.

(** The search finds nothing exactly when no marker of the href is
    followed by ten capitals or digits. *)
Lemma re_search_product_None (href : string) :
  re_search_product href = None <->
  forall pre m rest,
    is_marker m -> href = (pre ++ m ++ rest)%string -> take_code rest = None.
Proof.
  split.
  - intros H pre. revert href H.
    induction pre as [|a pre IH]; intros href H m rest Hk ->.
    + rewrite re_search_product_unfold in H. simpl in H.
      rewrite (match_product_at_marker _ _ Hk) in H.
      destruct (take_code rest); [discriminate | reflexivity].
    + rewrite re_search_product_unfold in H.
      destruct (match_product_at _); [discriminate |].
      simpl in H. exact (IH _ H m rest Hk eq_refl).
  - induction href as [|a href IH]; intros H.
    + reflexivity.
    + rewrite re_search_product_unfold.
      destruct (match_product_at (String a href)) as [c|] eqn:Hm.
      * destruct (match_product_at_Some _ _ Hm) as (m & post & Hk & Heq & Hl & Ha).
        pose proof (H "" m (c ++ post)%string Hk Heq) as Hn.
        rewrite (take_code_append _ _ Hl Ha) in Hn. discriminate.
      * apply IH. intros pre m rest Hk ->.
        apply (H (String a pre) m rest Hk). reflexivity.
Qed.

(** C10, against the wording of the specification: a lowercase letter
    after the tenth character of the segment does not prevent the match;
    "/dp/B00ABCDEFGhij" gives the code B00ABCDEFG. *)
Lemma lowercase_beyond_tenth_is_ignored : ~ lowercase_segment_blocks.
Proof.
  intros H.
  specialize (H "/dp/" "B00ABCDEFGhij" "" "h"%char
                (or_introl eq_refl) eq_refl (or_introl eq_refl)).
  assert (re_search_product ("/dp/" ++ "B00ABCDEFGhij" ++ "") = None) as Hn.
  { apply H; [| reflexivity].
    cbn. do 10 right. left. reflexivity. }
  vm_compute in Hn. discriminate.
Qed.

Lemma links_loop_skip (link : Html.node) (more : list Html.node) :
  re_search_product (Html.get link "href" "") = None ->
  links_loop (link :: more) = links_loop more.
Proof.
  intros H. cbn [links_loop]. rewrite H.
  now destruct (_ || _)%bool.
Qed.

(** C10, amended.  The match is case-sensitive and looks at the ten
    characters that follow a marker, and at no more: a code that is
    found is ten capitals or digits standing right after a marker;
    nothing is found exactly when no marker of the href is followed by
    ten such characters; one lowercase letter among the ten makes the
    match at that marker fail; and a candidate in which nothing is found
    is passed over. *)
Theorem product_code_case_sensitive :
  (forall href code,
      re_search_product href = Some code ->
      exists pre m post,
        is_marker m /\ href = (pre ++ m ++ code ++ post)%string
        /\ String.length code = 10
        /\ Text.all_chars Text.is_upper_or_digit code = true)
  /\ (forall href,
         re_search_product href = None <->
         forall pre m rest,
           is_marker m -> href = (pre ++ m ++ rest)%string ->
           take_code rest = None)
  /\ (forall rest i c,
         i < 10 -> String.get i rest = Some c -> Text.is_lower c = true ->
         take_code rest = None)
  /\ (forall link more,
         re_search_product (Html.get link "href" "") = None ->
         links_loop (link :: more) = links_loop more).
Proof.
  split; [exact re_search_product_Some |].
  split; [exact re_search_product_None |].
  split; [| exact links_loop_skip].
  intros rest i c Hi Hg Hc. unfold take_code.
  now rewrite (match_class_bad _ _ _ _ _ Hi Hg (lower_not_upper_or_digit _ Hc)).
Qed.

(** The law of C10 on a candidate whose code is written in lowercase:
    it holds the marker and is passed over. *)
Lemma product_code_case_sensitive_witness :
  has_marker "/dp/b00abcdefg" = true
  /\ re_search_product (Html.get (anchor [] "/dp/b00abcdefg") "href" "") = None
  /\ links_loop [anchor [] "/dp/b00abcdefg"; anchor [] "/dp/B00ABCDEFG"]
     = links_loop [anchor [] "/dp/B00ABCDEFG"].
Proof.
  split; [reflexivity |]. split; [reflexivity |].
  exact (proj2 (proj2 (proj2 product_code_case_sensitive))
               (anchor [] "/dp/b00abcdefg") [anchor [] "/dp/B00ABCDEFG"]
               eq_refl).
Defined.

(* ================================================================== *)
(** * The extractor *)
(* ================================================================== *)

Lemma first_some_app {A B} (f : A -> option B) (a b : list A) :
  first_some f (a ++ b)
  = match first_some f a with
    | Some x => Some x
    | None => first_some f b
    end.
Proof.
  induction a as [|x a IH]; simpl; [reflexivity |].
  destruct (f x); [reflexivity | exact IH].
Qed.

Lemma first_some_In {A B} (f : A -> option B) (l : list A) (b : B) :
  first_some f l = Some b -> exists x, In x l /\ f x = Some b.
Proof.
  induction l as [|x l IH]; simpl; [discriminate |].
  destruct (f x) as [b'|] eqn:Hx.
  - intros [= <-]. exists x. auto.
  - intros H. destruct (IH H) as (y & Hy & Hf). exists y. auto.
Qed.

(** The inner loop returns at the first candidate that is acceptable. *)
Lemma links_loop_first (links : list Html.node) :
  links_loop links = first_some acceptable (hrefs_of links).
Proof.
  induction links as [|link links IH]; simpl; [reflexivity |].
  unfold acceptable at 1, has_marker.
  destruct (_ || _)%bool; [| exact IH].
  destruct (re_search_product _); simpl; [reflexivity | exact IH].
Qed.

(** The two loops together return at the first acceptable candidate of
    the whole sequence. *)
Lemma selector_loop_first (soup : Html.document) (sels : list Html.selector) :
  selector_loop soup sels = first_some acceptable (candidates soup sels).
Proof.
  induction sels as [|sel sels IH]; simpl; [reflexivity |].
  unfold candidates in *. simpl. rewrite first_some_app, <- links_loop_first.
  destruct (links_loop _); [reflexivity | exact IH].
Qed.

Lemma candidates_app soup (a b : list Html.selector) :
  candidates soup (a ++ b) = candidates soup a ++ candidates soup b.
Proof. unfold candidates. apply flat_map_app. Qed.

Lemma acceptable_canonical (href link : string) :
  acceptable href = Some link -> canonical_link link.
Proof.
  unfold acceptable. destruct (has_marker href); [| discriminate].
  destruct (re_search_product href) as [c|] eqn:Hs; [| discriminate].
  intros [= <-].
  destruct (re_search_product_Some _ _ Hs) as (_ & _ & _ & _ & _ & Hl & Ha).
  now exists c.
Qed.

Lemma selector_loop_canonical soup sels link :
  selector_loop soup sels = Some link -> canonical_link link.
Proof.
  rewrite selector_loop_first. intros H.
  destruct (first_some_In _ _ _ H) as (href & _ & Hf).
  exact (acceptable_canonical _ _ Hf).
Qed.

(** C1, against the wording of the specification: on [sample_page] the
    first selector yields a candidate, which is no product, and the link
    comes from the candidates of the third selector. *)
Lemma later_pattern_is_considered :
  ~ (forall soup, selector_loop soup selectors = first_pattern_wins soup).
Proof.
  intros H. specialize (H sample_page). vm_compute in H. discriminate.
Qed.

(** C1, amended.  The selectors are tried in their order and the
    candidates of each in document order; the result is the canonical
    link of the first candidate, in that order, whose href holds a
    marker and in which the pattern finds a code.  A selector whose
    candidates give no such href leaves the decision to the next one.
    A link that is returned is the fixed prefix followed by a code of
    ten capitals or digits. *)
Theorem selector_loop_first_acceptable :
  (forall soup,
      selector_loop soup selectors
      = first_some acceptable (candidates soup selectors))
  /\ (forall soup link,
         selector_loop soup selectors = Some link -> canonical_link link)
  /\ (forall soup before sel after pre href post link,
         selectors = before ++ sel :: after ->
         first_some acceptable (candidates soup before) = None ->
         hrefs_of (Html.select sel soup) = pre ++ href :: post ->
         first_some acceptable pre = None ->
         acceptable href = Some link ->
         selector_loop soup selectors = Some link).
Proof.
  split; [intros; apply selector_loop_first |].
  split; [intros soup link; apply selector_loop_canonical |].
  intros soup before sel after pre href post link -> Hb Hs Hp Ha.
  rewrite selector_loop_first, candidates_app, first_some_app, Hb.
  unfold candidates. simpl. rewrite first_some_app, Hs, first_some_app, Hp.
  simpl. now rewrite Ha.
Qed.

(** The law of C1 on [sample_page]: the first two selectors give nothing
    acceptable and the third gives the link. *)
Lemma selector_loop_first_acceptable_witness :
  first_some acceptable (candidates sample_page (firstn 2 selectors)) = None
  /\ hrefs_of (Html.select (nth 2 selectors []) sample_page)
     = [] ++ "/Title/dp/B00ABCDEFG/ref=sr_1" :: []
  /\ acceptable "/Title/dp/B00ABCDEFG/ref=sr_1"
     = Some "https://www.amazon.com/dp/B00ABCDEFG"
  /\ selector_loop sample_page selectors
     = Some "https://www.amazon.com/dp/B00ABCDEFG".
Proof.
  do 3 (split; [reflexivity |]).
  exact (proj2 (proj2 selector_loop_first_acceptable)
               sample_page (firstn 2 selectors) (nth 2 selectors [])
               (skipn 3 selectors) [] _ [] _
               eq_refl eq_refl eq_refl eq_refl eq_refl).
Defined.

(* ================================================================== *)
(** * The fetcher *)
(* ================================================================== *)

Lemma requests_made_app (a b : trace) :
  requests_made (a ++ b) = requests_made a + requests_made b.
Proof. unfold requests_made. now rewrite filter_app, length_app. Qed.

Lemma requests_made_attempt (url : string) (o : outcome) :
  requests_made (attempt_events url o) = 1.
Proof.
  destruct o as [r|why]; [| reflexivity].
  unfold attempt_events. destruct (Z.eqb (status_code r) 503); reflexivity.
Qed.

(** One call of the body: one request, and the extra pause on a 503. *)
Lemma make_request_body_eq (net : network) (url : string) (t : trace) :
  make_request_body net url t
  = (attempt_result (net (requests_made t) url),
     t ++ attempt_events url (net (requests_made t) url)).
Proof.
  unfold make_request_body, bind, emit, session_get, print, raise, ret.
  rewrite requests_made_app. cbn [requests_made filter is_get length].
  rewrite Nat.add_0_r.
  destruct (net (requests_made t) url) as [r|why]; cbn.
  - destruct (Z.eqb (status_code r) 503); cbn;
      now rewrite <- !app_assoc.
  - now rewrite <- app_assoc.
Qed.

Lemma attempt_result_fails (o : outcome) :
  attempt_fails o = true -> exists e, attempt_result o = Raised e.
Proof.
  destruct o as [r|why]; simpl; [| now eexists].
  intros ->. now eexists.
Qed.

Lemma attempt_result_passes (o : outcome) :
  attempt_fails o = false -> exists r, o = Answers r /\ attempt_result o = Returned r.
Proof.
  destruct o as [r|why]; simpl; [| discriminate].
  intros ->. now exists r.
Qed.

(** The loop of the decorator around the body: it stops at the first
    attempt [m] that does not fail, or at the last one allowed. *)
Lemma retry_loop_make_request (net : network) (url : string) :
  forall left k t,
  exists m,
    m <= left
    /\ (forall j, j < m ->
          attempt_fails (net (requests_made t + j) url) = true)
    /\ (attempt_fails (net (requests_made t + m) url) = true -> m = left)
    /\ retry_loop left k (make_request_body net url) t
       = (attempt_result (net (requests_made t + m) url),
          t ++ retries_events net url (requests_made t) k m
            ++ attempt_events url (net (requests_made t + m) url)).
Proof.
  induction left as [|left IH]; intros k t.
  - exists 0. rewrite Nat.add_0_r. repeat split; try lia.
    cbn [retry_loop retries_events app]. rewrite make_request_body_eq.
    now destruct (attempt_result _).
  - destruct (attempt_fails (net (requests_made t) url)) eqn:Hf.
    + set (t1 := (t ++ attempt_events url (net (requests_made t) url))
                   ++ [Backoff (2 ^ Z.of_nat k)]).
      assert (requests_made t1 = S (requests_made t)) as Hn.
      { unfold t1. rewrite !requests_made_app, requests_made_attempt.
        cbn. lia. }
      destruct (IH (S k) t1) as (m & Hm & Hall & Hlast & Heq).
      exists (S m). rewrite Hn in *.
      replace (requests_made t + S m) with (S (requests_made t) + m) by lia.
      repeat split.
      * lia.
      * intros [|j] Hj; [now rewrite Nat.add_0_r |].
        replace (requests_made t + S j) with (S (requests_made t) + j) by lia.
        apply Hall. lia.
      * intros H. f_equal. auto.
      * cbn [retry_loop]. rewrite make_request_body_eq.
        destruct (attempt_result_fails _ Hf) as (e & ->).
        fold t1. rewrite Heq. f_equal.
        unfold t1. cbn [retries_events]. now rewrite <- !app_assoc.
    + exists 0. rewrite Nat.add_0_r. repeat split; try lia.
      * rewrite Hf. discriminate.
      * cbn [retry_loop retries_events app]. rewrite make_request_body_eq.
        destruct (attempt_result_passes _ Hf) as (r & _ & ->). reflexivity.
Qed.

Lemma requests_made_retries net url n k m :
  requests_made (retries_events net url n k m) = m.
Proof.
  revert n k. induction m as [|m IH]; intros n k; [reflexivity |].
  cbn [retries_events]. rewrite !requests_made_app, requests_made_attempt, IH.
  reflexivity.
Qed.

(** [make_request] in full: which attempt decides, what is returned and
    what the trace becomes. *)
Lemma make_request_eq (net : network) (url : string) (t : trace) :
  exists m,
    m < 5
    /\ (forall j, j < m ->
          attempt_fails (net (requests_made t + j) url) = true)
    /\ (attempt_fails (net (requests_made t + m) url) = true -> m = 4)
    /\ make_request net url t
       = (attempt_result (net (requests_made t + m) url),
          t ++ retries_events net url (requests_made t) 0 m
            ++ attempt_events url (net (requests_made t + m) url))
    /\ requests_made (snd (make_request net url t))
       = requests_made t + S m.
Proof.
  destruct (retry_loop_make_request net url 4 0 t) as (m & Hm & Hall & Hlast & Heq).
  exists m. unfold make_request, on_exception. cbn [Nat.sub].
  repeat split; auto; [lia |].
  rewrite Heq. cbn [snd].
  rewrite !requests_made_app, requests_made_retries, requests_made_attempt.
  lia.
Qed.

Lemma make_request_503_503_200 net url t a b r :
  net (requests_made t) url = Answers a -> status_code a = 503%Z ->
  net (requests_made t + 1) url = Answers b -> status_code b = 503%Z ->
  net (requests_made t + 2) url = Answers r -> status_code r = 200%Z ->
  make_request net url t
  = (Returned r,
     t ++ [Sleep 2 7; Get url; Print MsgReceived503; Sleep 10 15;
           Backoff 1;
           Sleep 2 7; Get url; Print MsgReceived503; Sleep 10 15;
           Backoff 2;
           Sleep 2 7; Get url]).
Proof.
  intros Ha Sa Hb Sb Hr Sr.
  destruct (make_request_eq net url t) as (m & Hm & Hall & Hlast & Heq & _).
  assert (m = 2) as ->.
  { destruct (Nat.lt_trichotomy m 2) as [Hlt | [-> | Hgt]]; [| reflexivity |].
    - assert (attempt_fails (net (requests_made t + m) url) = true) as Hf.
      { destruct m as [|[|m]]; [| | lia].
        - rewrite Nat.add_0_r, Ha. simpl. now rewrite Sa.
        - rewrite Hb. simpl. now rewrite Sb. }
      apply Hlast in Hf. lia.
    - specialize (Hall 2 Hgt). rewrite Hr in Hall. simpl in Hall.
      rewrite Sr in Hall. discriminate. }
  rewrite Heq. cbn [retries_events].
  rewrite Hr, Ha. replace (S (requests_made t)) with (requests_made t + 1) by lia.
  rewrite Hb. cbn. rewrite Sa, Sb, Sr. reflexivity.
Qed.

Lemma make_request_gives_up net url t :
  (forall j, j < 5 -> attempt_fails (net (requests_made t + j) url) = true) ->
  exists e t',
    make_request net url t = (Raised e, t')
    /\ requests_made t' = requests_made t + 5.
Proof.
  intros Hall.
  destruct (make_request_eq net url t) as (m & Hm & _ & Hlast & Heq & Hn).
  pose proof (Hlast (Hall m Hm)) as ->.
  destruct (attempt_result_fails _ (Hall 4 ltac:(lia))) as (e & He).
  rewrite Heq, He in *. eexists _, _. split; [reflexivity | exact Hn].
Qed.

(** C3. [make_request] makes at least one and at most five requests.  It
    tries again after every attempt that raised or answered 503, after
    the pause of the decorator, whose cap doubles from one try to the
    next; a 503 adds a pause drawn between 10 and 15 seconds before that.
    The answers 503, 503, 200 end in the third answer being returned
    after three requests; five failed attempts end in the exception
    being raised after exactly five requests. *)
Theorem make_request_retry_policy :
  (forall net url t, exists m,
      m < 5
      /\ (forall j, j < m ->
            attempt_fails (net (requests_made t + j) url) = true)
      /\ (attempt_fails (net (requests_made t + m) url) = true -> m = 4)
      /\ make_request net url t
         = (attempt_result (net (requests_made t + m) url),
            t ++ retries_events net url (requests_made t) 0 m
              ++ attempt_events url (net (requests_made t + m) url))
      /\ requests_made (snd (make_request net url t))
         = requests_made t + S m)
  /\ (forall net url t a b r,
         net (requests_made t) url = Answers a -> status_code a = 503%Z ->
         net (requests_made t + 1) url = Answers b -> status_code b = 503%Z ->
         net (requests_made t + 2) url = Answers r -> status_code r = 200%Z ->
         make_request net url t
         = (Returned r,
            t ++ [Sleep 2 7; Get url; Print MsgReceived503; Sleep 10 15;
                  Backoff 1;
                  Sleep 2 7; Get url; Print MsgReceived503; Sleep 10 15;
                  Backoff 2;
                  Sleep 2 7; Get url]))
  /\ (forall net url t,
         (forall j, j < 5 ->
            attempt_fails (net (requests_made t + j) url) = true) ->
         exists e t',
           make_request net url t = (Raised e, t')
           /\ requests_made t' = requests_made t + 5).
Proof.
  split; [exact make_request_eq |].
  split; [exact make_request_503_503_200 | exact make_request_gives_up].
Qed.

(** The two scenarios of C3 on sample networks. *)
Lemma make_request_retry_policy_witness :
  (fst (make_request net_503_503_200 "https://www.amazon.com/dp/0134685997" [])
   = Returned {| status_code := 200;
                 url := "https://www.amazon.com/dp/0134685997";
                 soup_of_text := sample_page |}
   /\ requests_made
        (snd (make_request net_503_503_200
                           "https://www.amazon.com/dp/0134685997" [])) = 3)
  /\ (forall j, j < 5 ->
        attempt_fails (net_down (requests_made [] + j) "u") = true)
  /\ exists e t',
       make_request net_down "u" [] = (Raised e, t')
       /\ requests_made t' = 5.
Proof.
  split.
  - rewrite (proj1 (proj2 make_request_retry_policy)
               net_503_503_200 "https://www.amazon.com/dp/0134685997" []
               _ _ _ eq_refl eq_refl eq_refl eq_refl eq_refl eq_refl).
    split; reflexivity.
  - split; [intros; reflexivity |].
    exact (proj2 (proj2 make_request_retry_policy) net_down "u" []
                 (fun _ _ => eq_refl)).
Defined.

(* ================================================================== *)
(** * The orchestrator *)
(* ================================================================== *)

Lemma has_column_getitem (row : Series) (key : string) :
  has_column row key = true -> exists v, getitem row key = Returned v.
Proof.
  unfold has_column, getitem.
  destruct (lookup key (entries row)) as [v|]; [now exists v | discriminate].
Qed.

Lemma has_columns_cells (row : Series) :
  has_columns row = true ->
  exists title author yr ed upc,
    getitem row "Book Title" = Returned title
    /\ getitem row "Author" = Returned author
    /\ getitem row "Yr" = Returned yr
    /\ getitem row "Ed" = Returned ed
    /\ getitem row "UPC" = Returned upc.
Proof.
  unfold has_columns, required_columns. cbn [forallb].
  rewrite !andb_true_iff. intros (H1 & H2 & H3 & H4 & H5 & _).
  destruct (has_column_getitem _ _ H1) as (title & ?).
  destruct (has_column_getitem _ _ H2) as (author & ?).
  destruct (has_column_getitem _ _ H3) as (yr & ?).
  destruct (has_column_getitem _ _ H4) as (ed & ?).
  destruct (has_column_getitem _ _ H5) as (upc & ?).
  now exists title, author, yr, ed, upc.
Qed.

(** The direct attempt, step by step. *)
Lemma try_isbn_eq (net : network) (row : Series) (upc : cell) (t : trace) :
  getitem row "UPC" = Returned upc ->
  try_isbn net row t
  = if usable_identifier upc then
      let isbn := Text.strip (str upc) in
      let f := make_request net (direct_url_of isbn)
                            (t ++ [Print (MsgFoundValidISBN isbn)]) in
      let d := direct_outcome (direct_url_of isbn) (fst f) in
      (Returned (fst d), snd f ++ [Print (snd d)])
    else (Returned None, t).
Proof.
  intros H. unfold try_isbn, usable_identifier, bind, lift. rewrite H.
  destruct (filled upc); [| reflexivity].
  destruct (is_valid_isbn _); [| reflexivity].
  cbn [andb]. unfold print, emit, try_except, bind, ret, direct_url_of.
  destruct (make_request _ _ _) as [[resp|e] t1];
    cbn [fst snd direct_outcome]; [| reflexivity].
  destruct (_ && _)%bool; reflexivity.
Qed.

(** The search and the extraction, step by step. *)
Lemma get_first_product_link_eq (net : network) (su bt : string) (t : trace) :
  get_first_product_link net su bt t
  = let f := make_request net su (t ++ [Print (MsgSearching bt)]) in
    let s := search_outcome su (fst f) in
    (Returned (fst s), snd f ++ [Print (snd s)]).
Proof.
  unfold get_first_product_link, print, emit, try_except, bind, ret.
  destruct (make_request _ _ _) as [[resp|e] t1];
    cbn [fst snd search_outcome]; [| reflexivity].
  destruct (negb _); [reflexivity |].
  destruct (selector_loop (soup_of_text resp) selectors); reflexivity.
Qed.

Lemma try_search_eq (net : network) (row : Series) (bt su : string)
      (t : trace) :
  create_search_url row = Returned su ->
  try_search net row bt t
  = if Text.is_empty su then (Returned "", t)
    else get_first_product_link net su bt t.
Proof.
  intros H. unfold try_search, bind, lift. rewrite H.
  destruct (Text.is_empty su); reflexivity.
Qed.

Lemma process_book_eq (net : network) (row : Series) (title : cell)
      (t : trace) :
  getitem row "Book Title" = Returned title ->
  process_book net row t
  = match try_isbn net row
            (t ++ [Print (MsgProcessingBook (row_name row + 1)
                                            (clean_text title))]) with
    | (Returned (Some direct_url), t') => (Returned direct_url, t')
    | (Returned None, t') => try_search net row (clean_text title) t'
    | (Raised e, t') => (Raised e, t')
    end.
Proof.
  intros H. unfold process_book, bind, lift, print, emit, ret. rewrite H.
  destruct (try_isbn _ _ _) as [[[u|]|e] t']; reflexivity.
Qed.

Lemma is_empty_true (s : string) : Text.is_empty s = true <-> s = "".
Proof. destruct s; simpl; split; congruence. Qed.

(** C6, against the wording of the specification: the identifier is
    valid, the fetch answers 200 and the final address holds the marker
    "/gp/product/", yet the direct link is not accepted, because the
    script looks for "dp/". *)
Lemma long_marker_is_not_accepted : ~ direct_accept_by_marker.
Proof.
  intros H.
  specialize (H net_gp_redirect effective_java (Some "0134685997") []
                eq_refl eq_refl).
  cbv zeta in H. destruct H as [_ H].
  destruct H as [t' H]; [| vm_compute in H; discriminate].
  eexists. vm_compute. repeat split.
Qed.

(** C6, amended.  For a record whose identifier is filled and valid, the
    direct attempt returns without raising; it gives the direct link
    exactly when the fetch returns a response with status 200 whose
    final address holds the text "dp/"; in every other case (the fetch
    raised, another status, no "dp/") it gives nothing, and
    [process_book] goes on with the search from the trace the attempt
    left. *)
Theorem direct_link_accepted_iff :
  forall net row title upc t,
    getitem row "Book Title" = Returned title ->
    getitem row "UPC" = Returned upc ->
    usable_identifier upc = true ->
    let isbn := Text.strip (str upc) in
    let t0 := t ++ [Print (MsgProcessingBook (row_name row + 1)
                                             (clean_text title))] in
    let f := make_request net (direct_url_of isbn)
                          (t0 ++ [Print (MsgFoundValidISBN isbn)]) in
    exists d t',
      try_isbn net row t0 = (Returned d, t')
      /\ (d = Some (direct_url_of isbn) <->
          exists resp, fst f = Returned resp
                       /\ status_code resp = 200%Z
                       /\ Text.contains "dp/" (url resp) = true)
      /\ (d = Some (direct_url_of isbn) ->
          process_book net row t = (Returned (direct_url_of isbn), t'))
      /\ (d <> Some (direct_url_of isbn) ->
          d = None
          /\ process_book net row t
             = try_search net row (clean_text title) t').
Proof.
  intros net row title upc t Ht Hu Hv isbn t0 f.
  pose proof (try_isbn_eq net row upc t0 Hu) as E.
  rewrite Hv in E. cbv zeta in E. fold isbn in E. fold f in E.
  pose proof (process_book_eq net row title t Ht) as P. fold t0 in P.
  rewrite E in P.
  eexists _, _. split; [exact E |].
  destruct (fst f) as [resp|e] eqn:Hf; cbn [direct_outcome] in *.
  - destruct (Z.eqb (status_code resp) 200) eqn:Hs;
      destruct (Text.contains "dp/" (url resp)) eqn:Hc;
      cbn [andb fst snd] in *.
    + repeat split; auto.
      * intros _. exists resp. apply Z.eqb_eq in Hs. auto.
      * congruence.
      * congruence.
    + repeat split; try congruence.
      intros (r & [= <-] & _ & Hc'). congruence.
    + repeat split; try congruence.
      intros (r & [= <-] & Hs' & _). apply Z.eqb_neq in Hs. congruence.
    + repeat split; try congruence.
      intros (r & [= <-] & Hs' & _). apply Z.eqb_neq in Hs. congruence.
  - cbn [fst snd] in *. repeat split; try congruence.
    intros (r & [=] & _).
Qed.

(** The law of C6 on two sites: one that answers the direct request
    with a product page, one that never answers. *)
Lemma direct_link_accepted_iff_witness :
  (getitem effective_java "Book Title" = Returned (Some "Effective Java")
   /\ getitem effective_java "UPC" = Returned (Some "0134685997")
   /\ usable_identifier (Some "0134685997") = true)
  /\ fst (process_book (fun _ u => answer 200 u []) effective_java [])
     = Returned "https://www.amazon.com/dp/0134685997"
  /\ fst (process_book net_down effective_java [])
     = Returned "https://www.amazon.com/s?k=Effective%20Java%20Bloch&i=stripbooks".
Proof.
  split; [repeat split |].
  split.
  - destruct (direct_link_accepted_iff (fun _ u => answer 200 u [])
                effective_java _ _ [] eq_refl eq_refl eq_refl)
      as (d & t' & E & Hiff & Hacc & _).
    rewrite Hacc; [reflexivity |].
    apply Hiff. eexists. vm_compute. repeat split.
  - destruct (direct_link_accepted_iff net_down
                effective_java _ _ [] eq_refl eq_refl eq_refl)
      as (d & t' & E & Hiff & _ & Hrej).
    destruct Hrej as [_ ->].
    + intros Hd. apply Hiff in Hd. destruct Hd as (resp & Hd & _).
      vm_compute in Hd. discriminate.
    + vm_compute in E. injection E as _ <-. reflexivity.
Defined.

Lemma gets_only_app url (a b : list event) :
  gets_only url a -> gets_only url b -> gets_only url (a ++ b).
Proof.
  intros Ha Hb u Hu. apply in_app_or in Hu as [Hu | Hu]; auto.
Qed.

Lemma gets_only_attempt url o : gets_only url (attempt_events url o).
Proof.
  intros u Hu. unfold attempt_events in Hu.
  destruct o as [r|why]; [destruct (Z.eqb (status_code r) 503) |];
    cbn in Hu; intuition congruence.
Qed.

Lemma gets_only_retries net url n k m :
  gets_only url (retries_events net url n k m).
Proof.
  revert n k. induction m as [|m IH]; intros n k; cbn [retries_events].
  - intros u [].
  - apply gets_only_app; [apply gets_only_attempt |].
    apply gets_only_app; [| apply IH].
    intros u [Hu | []]. discriminate.
Qed.

(** [make_request] only adds to the trace, and asks for nothing but its
    address. *)
Lemma make_request_added (net : network) (url : string) (t : trace) :
  exists added,
    snd (make_request net url t) = t ++ added /\ gets_only url added.
Proof.
  destruct (make_request_eq net url t) as (m & _ & _ & _ & Heq & _).
  rewrite Heq. eexists. split; [reflexivity |].
  apply gets_only_app; [apply gets_only_retries | apply gets_only_attempt].
Qed.

Lemma clean_url_not_empty (link : string) : canonical_link link -> link <> "".
Proof. intros (code & -> & _). discriminate. Qed.

(** What the search gives: the address of the search, or a canonical
    link taken from the page the fetch returned with status 200. *)
Lemma search_outcome_cases (su : string) (r : result response) :
  fst (search_outcome su r) = su
  \/ exists resp,
       r = Returned resp
       /\ status_code resp = 200%Z
       /\ selector_loop (soup_of_text resp) selectors
          = Some (fst (search_outcome su r)).
Proof.
  destruct r as [resp|e]; cbn [search_outcome]; [| now left].
  destruct (Z.eqb (status_code resp) 200) eqn:Hs; cbn [negb]; [| now left].
  destruct (selector_loop (soup_of_text resp) selectors) as [u|] eqn:Hl;
    [| now left].
  right. exists resp. apply Z.eqb_eq in Hs. auto.
Qed.

(** C7. A record whose identifier is missing, blank or of an invalid
    shape never asks for a direct link.  When its fields give a query,
    the link is what the search path gives: the address of the search,
    or a product link taken from the page of results; every request
    made for the record asks for the address of the search.  When its
    fields give no query, the link is empty and nothing is requested. *)
Theorem invalid_identifier_uses_search :
  forall net row title author yr ed upc t,
    getitem row "Book Title" = Returned title ->
    getitem row "Author" = Returned author ->
    getitem row "Yr" = Returned yr ->
    getitem row "Ed" = Returned ed ->
    getitem row "UPC" = Returned upc ->
    usable_identifier upc = false ->
    let search_url := search_url_of (query_parts title author yr ed) in
    let bt := clean_text title in
    let t0 := t ++ [Print (MsgProcessingBook (row_name row + 1) bt)] in
    (query_parts title author yr ed <> [] ->
     exists link added,
       process_book net row t = (Returned link, t ++ added)
       /\ process_book net row t
          = get_first_product_link net search_url bt t0
       /\ gets_only search_url added
       /\ (link = search_url
           \/ exists resp,
                fst (make_request net search_url
                                  (t0 ++ [Print (MsgSearching bt)]))
                = Returned resp
                /\ status_code resp = 200%Z
                /\ selector_loop (soup_of_text resp) selectors = Some link))
    /\ (query_parts title author yr ed = [] ->
        process_book net row t = (Returned "", t0)).
Proof.
  intros net row title author yr ed upc t Ht Ha Hy He Hu Hbad su bt t0.
  pose proof (create_search_url_parts row _ _ _ _ Ht Ha Hy He) as Hsu.
  fold su in Hsu.
  assert (process_book net row t = try_search net row bt t0) as P.
  { rewrite (process_book_eq net row title t Ht). fold bt. fold t0.
    rewrite (try_isbn_eq net row upc t0 Hu), Hbad. reflexivity. }
  rewrite P, (try_search_eq net row bt su t0 Hsu).
  split; intros Hq.
  - assert (Text.is_empty su = false) as ->.
    { destruct (Text.is_empty su) eqn:E; [| reflexivity].
      apply is_empty_true, search_url_of_empty_iff in E. contradiction. }
    rewrite get_first_product_link_eq. cbv zeta.
    set (f := make_request net su (t0 ++ [Print (MsgSearching bt)])).
    destruct (make_request_added net su (t0 ++ [Print (MsgSearching bt)]))
      as (added & Hadd & Hgets).
    fold f in Hadd.
    exists (fst (search_outcome su (fst f))),
      ([Print (MsgProcessingBook (row_name row + 1) bt)]
         ++ [Print (MsgSearching bt)] ++ added
         ++ [Print (snd (search_outcome su (fst f)))]).
    split; [| split; [reflexivity | split]].
    + rewrite Hadd. unfold t0. now rewrite <- !app_assoc.
    + apply gets_only_app; [intros u [Hu' | []]; discriminate |].
      apply gets_only_app; [intros u [Hu' | []]; discriminate |].
      apply gets_only_app; [exact Hgets |].
      intros u [Hu' | []]; discriminate.
    + destruct (search_outcome_cases su (fst f))
        as [E | (resp & E1 & E2 & E3)]; [now left |].
      right. exists resp. auto.
  - assert (Text.is_empty su = true) as ->; [| reflexivity].
    apply is_empty_true, search_url_of_empty_iff. exact Hq.
Qed.

(** The law of C7 on a record without identifier, with a title and on a
    site that is down, and on a record without any field. *)
Lemma invalid_identifier_uses_search_witness :
  usable_identifier None = false
  /\ query_parts (Some "Dune") None None None <> []
  /\ fst (process_book net_down dune [])
     = Returned "https://www.amazon.com/s?k=Dune&i=stripbooks"
  /\ query_parts None (Some "") (Some "  ") None = []
  /\ process_book net_down blank_book []
     = (Returned "", [Print (MsgProcessingBook 1 "")]).
Proof.
  split; [reflexivity |]. split; [discriminate |].
  split.
  - destruct (proj1 (invalid_identifier_uses_search net_down dune
                       _ _ _ _ _ []
                       eq_refl eq_refl eq_refl eq_refl eq_refl eq_refl))
      as (link & added & E & _ & _ & Hl); [discriminate |].
    rewrite E. cbn [fst]. destruct Hl as [-> | (resp & Hr & _)].
    + reflexivity.
    + vm_compute in Hr. discriminate.
  - split; [reflexivity |].
    exact (proj2 (invalid_identifier_uses_search net_down blank_book
                    _ _ _ _ _ []
                    eq_refl eq_refl eq_refl eq_refl eq_refl eq_refl)
                 eq_refl).
Defined.

(** What [process_book] returns for a row that has its columns: the
    direct link of a usable identifier, the address of the search (empty
    when no query can be built), or a canonical product link. *)
Lemma process_book_outcome (net : network) (row : Series)
      (title author yr ed upc : cell) (t : trace) :
  getitem row "Book Title" = Returned title ->
  getitem row "Author" = Returned author ->
  getitem row "Yr" = Returned yr ->
  getitem row "Ed" = Returned ed ->
  getitem row "UPC" = Returned upc ->
  exists link t',
    process_book net row t = (Returned link, t')
    /\ ((usable_identifier upc = true
         /\ link = direct_url_of (Text.strip (str upc)))
        \/ link = search_url_of (query_parts title author yr ed)
        \/ (canonical_link link /\ query_parts title author yr ed <> [])).
Proof.
  intros Ht Ha Hy He Hu.
  pose proof (create_search_url_parts row _ _ _ _ Ht Ha Hy He) as Hsu.
  set (su := search_url_of (query_parts title author yr ed)) in *.
  assert (forall bt t1, exists link t',
             try_search net row bt t1 = (Returned link, t')
             /\ (link = su
                 \/ (canonical_link link
                     /\ query_parts title author yr ed <> []))) as Hsearch.
  { intros bt t1. rewrite (try_search_eq net row bt su t1 Hsu).
    destruct (Text.is_empty su) eqn:E.
    - apply is_empty_true in E. eexists _, _. split; [reflexivity |].
      now left.
    - rewrite get_first_product_link_eq. cbv zeta.
      eexists _, _. split; [reflexivity |].
      destruct (search_outcome_cases su
                  (fst (make_request net su (t1 ++ [Print (MsgSearching bt)]))))
        as [E' | (resp & _ & _ & E')]; [now left |].
      right. split; [exact (selector_loop_canonical _ _ _ E') |].
      intros Hq. apply search_url_of_empty_iff in Hq. fold su in Hq.
      rewrite Hq in E. discriminate. }
  rewrite (process_book_eq net row title t Ht), (try_isbn_eq net row upc _ Hu).
  destruct (usable_identifier upc) eqn:Hv.
  - cbv zeta.
    destruct (direct_outcome _ _) as [[u|] msg] eqn:Hd; cbn [fst snd].
    + eexists _, _. split; [reflexivity |]. left. split; [reflexivity |].
      unfold direct_outcome in Hd.
      destruct (fst (make_request _ _ _)) as [resp|e]; [| discriminate].
      destruct (_ && _)%bool; now inversion Hd.
    + destruct (Hsearch (clean_text title)
                  (snd (make_request net (direct_url_of (Text.strip (str upc)))
                          ((t ++ [Print (MsgProcessingBook (row_name row + 1)
                                                           (clean_text title))])
                             ++ [Print (MsgFoundValidISBN
                                          (Text.strip (str upc)))]))
                     ++ [Print msg]))
        as (link & t' & E & Hl).
      exists link, t'. split; [exact E | now right].
  - destruct (Hsearch (clean_text title)
                (t ++ [Print (MsgProcessingBook (row_name row + 1)
                                                (clean_text title))]))
      as (link & t' & E & Hl).
    exists link, t'. split; [exact E | now right].
Qed.

Lemma direct_url_prefix (isbn : string) :
  String.prefix "https://www.amazon.com/" (direct_url_of isbn) = true.
Proof. reflexivity. Qed.

(** C9. For a row that has its columns, [process_book] returns a link
    that is empty or begins with the address of the site, and is then
    one of three: the direct link of the row's valid identifier, a
    canonical product link, or the address of the search for the row's
    tokens. *)
Theorem process_book_link_shapes :
  forall net row t,
    has_columns row = true ->
    exists link t',
      process_book net row t = (Returned link, t')
      /\ (link = ""
          \/ (String.prefix "https://www.amazon.com/" link = true
              /\ ((exists upc,
                      getitem row "UPC" = Returned upc
                      /\ is_valid_isbn (Text.strip (str upc)) = true
                      /\ link = ("https://www.amazon.com/dp/"
                                 ++ Text.strip (str upc))%string)
                  \/ canonical_link link
                  \/ (exists parts,
                         parts <> []
                         /\ create_search_url row = Returned link
                         /\ link = ("https://www.amazon.com/s?k="
                                    ++ Text.quote (String.concat " " parts)
                                    ++ "&i=stripbooks")%string)))).
Proof.
  intros net row t Hc.
  destruct (has_columns_cells row Hc)
    as (title & author & yr & ed & upc & Ht & Ha & Hy & He & Hu).
  destruct (process_book_outcome net row _ _ _ _ _ t Ht Ha Hy He Hu)
    as (link & t' & E & Hl).
  exists link, t'. split; [exact E |].
  destruct Hl as [[Hv ->] | [-> | [Hcan Hq]]].
  - right. split; [apply direct_url_prefix |]. left.
    exists upc. unfold usable_identifier in Hv.
    apply andb_true_iff in Hv as [_ Hv]. auto.
  - destruct (query_parts title author yr ed) as [|p ps] eqn:Hq;
      [now left | right].
    split; [reflexivity |]. right. right.
    exists (p :: ps). split; [discriminate |]. split; [| reflexivity].
    rewrite (create_search_url_parts row _ _ _ _ Ht Ha Hy He), Hq.
    reflexivity.
  - right. split; [| now right; left].
    destruct Hcan as (code & -> & _). reflexivity.
Qed.

(** The law of C9 on the row of the specification, on a site that is
    overloaded twice and then serves [sample_page]. *)
Lemma process_book_link_shapes_witness :
  has_columns hobbit = true
  /\ exists link t',
       process_book net_503_503_200 hobbit [] = (Returned link, t')
       /\ link = "https://www.amazon.com/dp/B00ABCDEFG"
       /\ String.prefix "https://www.amazon.com/" link = true.
Proof.
  split; [reflexivity |].
  destruct (process_book_link_shapes net_503_503_200 hobbit [] eq_refl)
    as (link & t' & E & _).
  exists link, t'. split; [exact E |].
  vm_compute in E. injection E as <- _. split; reflexivity.
Defined.

(* ================================================================== *)
(** * The batch *)
(* ================================================================== *)

Lemma lookup_combine (key : string) (cols : list string) (cells : list cell) :
  In key cols -> List.length cols <= List.length cells ->
  exists v, lookup key (combine cols cells) = Some v.
Proof.
  revert cells. induction cols as [|c cols IH]; intros cells Hin Hlen.
  - destruct Hin.
  - destruct cells as [|x cells]; [simpl in Hlen; lia |].
    simpl. destruct (String.eqb c key) eqn:E; [now exists x |].
    destruct Hin as [-> | Hin]; [now rewrite String.eqb_refl in E |].
    apply IH; [exact Hin | simpl in Hlen; lia].
Qed.

(** A record of a well-formed table makes a row with the five columns. *)
Lemma well_formed_has_columns (df : DataFrame) (i : nat) (cells : list cell) :
  well_formed df -> In cells (records df) ->
  has_columns (row_of (columns df) i cells) = true.
Proof.
  intros [Hreq Hlen] Hin. unfold has_columns.
  apply forallb_forall. intros key Hkey. unfold has_column, row_of. simpl.
  destruct (lookup_combine key (columns df) cells) as (v & ->); auto.
  rewrite (Hlen _ Hin). lia.
Qed.

Lemma process_book_returns (net : network) (row : Series) (t : trace) :
  has_columns row = true ->
  exists link t', process_book net row t = (Returned link, t').
Proof.
  intros Hc.
  destruct (has_columns_cells row Hc)
    as (title & author & yr & ed & upc & Ht & Ha & Hy & He & Hu).
  destruct (process_book_outcome net row _ _ _ _ _ t Ht Ha Hy He Hu)
    as (link & t' & E & _).
  now exists link, t'.
Qed.

(** [apply] goes through all the rows: a row that has its columns never
    stops it. *)
Lemma apply_rows_returns (net : network) (cols : list string)
      (rows : list (list cell)) :
  (forall cells j, In cells rows -> has_columns (row_of cols j cells) = true) ->
  forall i t,
  exists links t',
    apply_rows net cols i rows t = (Returned links, t')
    /\ List.length links = List.length rows.
Proof.
  induction rows as [|cells rows IH]; intros Hall i t.
  - exists [], t. split; reflexivity.
  - cbn [apply_rows]. unfold bind at 1.
    destruct (process_book_returns net (row_of cols i cells) t)
      as (link & t1 & E); [apply Hall; now left |].
    rewrite E.
    destruct (IH (fun c j H => Hall c j (or_intror H)) (S i) t1)
      as (links & t2 & E2 & Hlen).
    unfold bind. rewrite E2. exists (link :: links), t2.
    split; [reflexivity | simpl; now rewrite Hlen].
Qed.

(** C2, against the wording of the specification: with the site down,
    the fetch of the search page raises, the handler of
    [get_first_product_link] reports it, and the link is the address of
    the search, not the empty text. *)
Lemma caught_exception_gives_search_url : ~ exceptions_give_empty_link.
Proof.
  intros H.
  destruct (H net_down dune [] eq_refl) as (link & t' & E & Hempty).
  vm_compute in E. injection E as <- <-.
  specialize (Hempty eq_refl). discriminate.
Qed.

(** C2, amended.  For a record that has the five columns [process_book]
    never raises, whatever the site does, and its link is empty only
    when no query can be built.  An exception of the direct fetch is
    caught and reported, and the direct attempt gives way to the search;
    an exception of the search fetch is caught and reported inside
    [get_first_product_link], which then returns the address of the
    search (not the empty text).  The rows of a table are all processed,
    one link each. *)
Theorem process_book_never_raises :
  (forall net row t,
      has_columns row = true ->
      exists link t',
        process_book net row t = (Returned link, t')
        /\ (link = "" -> create_search_url row = Returned ""))
  /\ (forall net row upc t e t1,
         getitem row "UPC" = Returned upc ->
         usable_identifier upc = true ->
         make_request net (direct_url_of (Text.strip (str upc)))
                      (t ++ [Print (MsgFoundValidISBN (Text.strip (str upc)))])
         = (Raised e, t1) ->
         try_isbn net row t = (Returned None, t1 ++ [Print MsgISBNError]))
  /\ (forall net search_url book_title t e t1,
         make_request net search_url (t ++ [Print (MsgSearching book_title)])
         = (Raised e, t1) ->
         get_first_product_link net search_url book_title t
         = (Returned search_url, t1 ++ [Print (MsgErrorGettingLink e)]))
  /\ (forall net cols rows i t,
         (forall cells j, In cells rows ->
                          has_columns (row_of cols j cells) = true) ->
         exists links t',
           apply_rows net cols i rows t = (Returned links, t')
           /\ List.length links = List.length rows).
Proof.
  split; [| split; [| split]].
  - intros net row t Hc.
    destruct (has_columns_cells row Hc)
      as (title & author & yr & ed & upc & Ht & Ha & Hy & He & Hu).
    destruct (process_book_outcome net row _ _ _ _ _ t Ht Ha Hy He Hu)
      as (link & t' & E & Hl).
    exists link, t'. split; [exact E |]. intros ->.
    rewrite (create_search_url_parts row _ _ _ _ Ht Ha Hy He).
    destruct Hl as [[_ Hl] | [<- | [Hcan _]]].
    + discriminate.
    + reflexivity.
    + now apply clean_url_not_empty in Hcan.
  - intros net row upc t e t1 Hu Hv Hf.
    rewrite (try_isbn_eq net row upc t Hu), Hv. cbv zeta.
    now rewrite Hf.
  - intros net su bt t e t1 Hf.
    rewrite get_first_product_link_eq. cbv zeta. now rewrite Hf.
  - intros net cols rows i t Hall.
    now apply apply_rows_returns.
Qed.

(** The law of C2 on a record with a title only and on a record with a
    valid identifier, both on a site that is down. *)
Lemma process_book_never_raises_witness :
  has_columns dune = true
  /\ (exists link t', process_book net_down dune [] = (Returned link, t')
                      /\ link = "https://www.amazon.com/s?k=Dune&i=stripbooks")
  /\ usable_identifier (Some "0134685997") = true
  /\ fst (try_isbn net_down effective_java []) = Returned None.
Proof.
  split; [reflexivity |]. split.
  - destruct (proj1 process_book_never_raises net_down dune [] eq_refl)
      as (link & t' & E & _).
    exists link, t'. split; [exact E |].
    vm_compute in E. now injection E as <- _.
  - split; [reflexivity |].
    destruct (make_request net_down (direct_url_of "0134685997")
                ([] ++ [Print (MsgFoundValidISBN "0134685997")]))
      as [[resp|e] t1] eqn:Hf; [vm_compute in Hf; discriminate |].
    now rewrite (proj1 (proj2 process_book_never_raises)
                   net_down effective_java (Some "0134685997") [] e t1
                   eq_refl eq_refl Hf).
Defined.

Lemma index_of_None (key : string) (cols : list string) :
  ~ In key cols -> index_of key cols = None.
Proof.
  induction cols as [|c cols IH]; intros Hn; [reflexivity |].
  simpl. destruct (String.eqb c key) eqn:E.
  - apply String.eqb_eq in E. elim Hn. now left.
  - rewrite IH; [reflexivity |]. intros H. apply Hn. now right.
Qed.

Lemma nth_error_combine {A B} (a : list A) (b : list B) (i : nat) (x : A) :
  List.length a = List.length b ->
  nth_error a i = Some x ->
  exists y, nth_error b i = Some y /\ nth_error (combine a b) i = Some (x, y).
Proof.
  revert b i. induction a as [|x' a IH]; intros b i Hlen Hx.
  - destruct i; discriminate.
  - destruct b as [|y b]; [discriminate |].
    destruct i as [|i]; simpl in *.
    + injection Hx as ->. now exists y.
    + apply IH; [lia | exact Hx].
Qed.

Lemma combine_snoc (cols : list string) (cells : list cell)
      (k : string) (v : cell) :
  List.length cells = List.length cols ->
  combine (cols ++ [k]) (cells ++ [v]) = combine cols cells ++ [(k, v)].
Proof.
  revert cells. induction cols as [|c cols IH]; intros cells Hlen.
  - destruct cells; [reflexivity | discriminate].
  - destruct cells as [|x cells]; [discriminate |].
    simpl. rewrite IH; [reflexivity | simpl in Hlen; lia].
Qed.

Lemma lookup_app_found (key : string) (l more : list (string * cell)) (v : cell) :
  lookup key l = Some v -> lookup key (l ++ more) = Some v.
Proof.
  induction l as [|[k x] l IH]; simpl; [discriminate |].
  destruct (String.eqb k key); auto.
Qed.

(** The table the script saves when all its rows are processed. *)
Lemma df_apply_rows (net : network) (df : DataFrame) :
  records df <> [] ->
  df_apply net df
  = (links <- apply_rows net (columns df) 0 (records df) ;;
     ret (AppliedLinks links)).
Proof.
  intros Hne. unfold df_apply.
  destruct (records df); [contradiction | reflexivity].
Qed.

Lemma process_books_csv_saved (net : network) (df : DataFrame) (t : trace) :
  well_formed df ->
  records df <> [] ->
  exists links t',
    fst (apply_rows net (columns df) 0 (records df)
                    (t ++ [Print (MsgLoaded (List.length (records df)));
                           Print MsgGenerating]))
    = Returned links
    /\ List.length links = List.length (records df)
    /\ process_books_csv net df t
       = (Some (setitem df "Amazon_Link" (map Some links)), t').
Proof.
  intros Hwf Hne.
  destruct (apply_rows_returns net (columns df) (records df)
              (fun cells j H => well_formed_has_columns df j cells Hwf H)
              0 (t ++ [Print (MsgLoaded (List.length (records df)));
                       Print MsgGenerating]))
    as (links & t1 & E & Hlen).
  exists links, (t1 ++ [Print MsgSaving]).
  rewrite E. split; [reflexivity |]. split; [exact Hlen |].
  unfold process_books_csv. rewrite (df_apply_rows net df Hne).
  unfold bind, print, emit, ret, lift.
  rewrite <- app_assoc. cbn [app]. now rewrite E.
Qed.

(** C8, against the wording of the specification: a table that already
    has a column named "Amazon_Link" keeps its six columns, and the
    value "kept" of that column is replaced. *)
Lemma existing_link_column_is_overwritten : ~ link_column_appended.
Proof.
  intros H.
  destruct (H net_down rerun_table []) as (out & t' & E & Hcols & _).
  - split.
    + intros c Hc. apply in_or_app. now left.
    + intros cells [<- | []]. reflexivity.
  - vm_compute in E. injection E as <- _. discriminate.
Qed.

(** C8, amended.  For a table that has the columns the script reads, at
    least one record and no column named "Amazon_Link", the run saves a
    table with the same number of rows, in the same order, under the same columns followed
    by "Amazon_Link": every row is the row it was, followed by the link
    [process_book] gave for it, and the value under every column of the
    input is the one it was. *)
Theorem link_column_appended_when_new :
  forall net df t,
    well_formed df ->
    records df <> [] ->
    ~ In "Amazon_Link" (columns df) ->
    exists out t' links,
      process_books_csv net df t = (Some out, t')
      /\ fst (apply_rows net (columns df) 0 (records df)
                         (t ++ [Print (MsgLoaded (List.length (records df)));
                                Print MsgGenerating]))
         = Returned links
      /\ columns out = columns df ++ ["Amazon_Link"]
      /\ List.length (records out) = List.length (records df)
      /\ forall i cells,
           nth_error (records df) i = Some cells ->
           exists link,
             nth_error links i = Some link
             /\ nth_error (records out) i = Some (cells ++ [Some link])
             /\ forall c v,
                  getitem (row_of (columns df) i cells) c = Returned v ->
                  getitem (row_of (columns out) i (cells ++ [Some link])) c
                  = Returned v.
Proof.
  intros net df t Hwf Hne Hnew.
  destruct (process_books_csv_saved net df t Hwf Hne)
    as (links & t' & Happly & Hlen & Hsaved).
  exists (setitem df "Amazon_Link" (map Some links)), t', links.
  split; [exact Hsaved |]. split; [exact Happly |].
  unfold setitem. rewrite (index_of_None _ _ Hnew). cbn [columns records].
  split; [reflexivity |]. split.
  - rewrite length_map, length_combine, length_map, Hlen. lia.
  - intros i cells Hi.
    destruct (nth_error_combine (records df) (map Some links) i cells)
      as (y & Hy & Hc); [now rewrite length_map | exact Hi |].
    rewrite nth_error_map in Hy.
    destruct (nth_error links i) as [link|] eqn:Hl; [| discriminate].
    injection Hy as <-. exists link. split; [reflexivity |]. split.
    + now rewrite (map_nth_error _ _ _ Hc).
    + intros c v. unfold getitem, row_of. cbn [entries].
      destruct Hwf as [_ Hshape].
      rewrite combine_snoc
        by (apply Hshape; eapply nth_error_In; exact Hi).
      destruct (lookup c (combine (columns df) cells)) as [x|] eqn:Hx;
        [| discriminate].
      intros [= <-]. now rewrite (lookup_app_found _ _ _ _ Hx).
Qed.

(** The law of C8 on a table of two books, one of which gives no query,
    on a site that is overloaded twice and then serves [sample_page]. *)
Lemma link_column_appended_when_new_witness :
  well_formed two_books
  /\ records two_books <> []
  /\ ~ In "Amazon_Link" (columns two_books)
  /\ exists out t',
       process_books_csv net_503_503_200 two_books [] = (Some out, t')
       /\ out = {| columns := required_columns ++ ["Amazon_Link"];
                   records :=
                     [[Some "The Hobbit"; Some "Tolkien"; Some "1997";
                       Some "4th"; None;
                       Some "https://www.amazon.com/dp/B00ABCDEFG"];
                      [None; None; None; None; None; Some ""]] |}.
Proof.
  assert (well_formed two_books) as Hwf.
  { split.
    - intros c Hc. exact Hc.
    - intros cells [<- | [<- | []]]; reflexivity. }
  assert (~ In "Amazon_Link" (columns two_books)) as Hnew.
  { cbn. intros H. repeat (destruct H as [H | H]; [discriminate |]).
    exact H. }
  assert (records two_books <> []) as Hne by discriminate.
  split; [exact Hwf |]. split; [exact Hne |]. split; [exact Hnew |].
  destruct (link_column_appended_when_new net_503_503_200 two_books []
              Hwf Hne Hnew) as (out & t' & links & E & _).
  exists out, t'. split; [exact E |].
  vm_compute in E. now injection E as <- _.
Defined.

(* ================================================================== *)
(** * Further properties: cleaning *)
(* ================================================================== *)

Lemma starts_clean_lstrip (s : string) : starts_clean (Text.lstrip s) = true.
Proof.
  induction s as [|c s IH]; simpl; [reflexivity |].
  destruct (Text.is_space c) eqn:Hc; [exact IH | simpl; now rewrite Hc].
Qed.

Lemma starts_clean_rstrip (s : string) :
  starts_clean s = true -> starts_clean (Text.rstrip s) = true.
Proof.
  destruct s as [|c s]; simpl; [reflexivity |].
  intros Hc. apply negb_true_iff in Hc. rewrite Hc. simpl. now rewrite Hc.
Qed.

Lemma ends_clean_rstrip (s : string) (b : bool) :
  ends_clean b (Text.rstrip s)
  = if Text.is_empty (Text.rstrip s) then negb b else true.
Proof.
  revert b. induction s as [|c s IH]; intros b; simpl; [reflexivity |].
  destruct (Text.is_space c) eqn:Hc;
    destruct (Text.is_empty (Text.rstrip s)) eqn:He; simpl;
    rewrite ?Hc, ?IH, ?He; reflexivity.
Qed.

Lemma single_spaced_collapse (s : string) (b : bool) :
  ends_clean b s = true ->
  single_spaced b (Text.collapse_spaces b s) = true.
Proof.
  revert b. induction s as [|c s IH]; intros b H; simpl in *; [exact H |].
  destruct (Text.is_space c) eqn:Hc.
  - destruct b; [now apply IH |].
    simpl. now apply IH.
  - simpl. rewrite Hc. now apply IH.
Qed.

Lemma starts_clean_collapse (s : string) :
  starts_clean s = true ->
  starts_clean (Text.collapse_spaces false s) = true.
Proof.
  destruct s as [|c s]; simpl; [reflexivity |].
  intros Hc. apply negb_true_iff in Hc. rewrite Hc. simpl. now rewrite Hc.
Qed.

Lemma lstrip_fixed (s : string) : starts_clean s = true -> Text.lstrip s = s.
Proof.
  destruct s as [|c s]; simpl; [reflexivity |].
  intros Hc. apply negb_true_iff in Hc. now rewrite Hc.
Qed.

Lemma rstrip_fixed (s : string) (b : bool) :
  ends_clean b s = true -> Text.rstrip s = s.
Proof.
  revert b. induction s as [|c s IH]; intros b H; simpl in *; [reflexivity |].
  rewrite (IH _ H).
  destruct (Text.is_space c) eqn:Hc; [| reflexivity].
  destruct s; [simpl in H; discriminate | reflexivity].
Qed.

Lemma single_spaced_ends_clean (s : string) (b : bool) :
  single_spaced b s = true -> ends_clean b s = true.
Proof.
  revert b. induction s as [|c s IH]; intros b H; simpl in *; [exact H |].
  destruct (Text.is_space c).
  - apply andb_true_iff in H as [_ H]. now apply IH.
  - now apply IH.
Qed.

Lemma collapse_fixed (s : string) (b : bool) :
  single_spaced b s = true -> Text.collapse_spaces b s = s.
Proof.
  revert b. induction s as [|c s IH]; intros b H; simpl in *; [reflexivity |].
  destruct (Text.is_space c).
  - apply andb_true_iff in H as [H Hs]. apply andb_true_iff in H as [Hc Hb].
    apply negb_true_iff in Hb. subst b. apply Ascii.eqb_eq in Hc. subst c.
    now rewrite (IH _ Hs).
  - now rewrite (IH _ H).
Qed.

(** A tidy text is left as it is by the two steps of [clean_text]. *)
Lemma tidy_fixed (s : string) :
  tidy s = true -> Text.collapse_spaces false (Text.strip s) = s.
Proof.
  unfold tidy, Text.strip. intros H. apply andb_true_iff in H as [Hs Ht].
  rewrite (lstrip_fixed _ Hs).
  rewrite (rstrip_fixed _ _ (single_spaced_ends_clean _ _ Ht)).
  now apply collapse_fixed.
Qed.

Lemma clean_text_is_tidy (text : cell) : tidy (clean_text text) = true.
Proof.
  unfold clean_text. destruct text as [s|]; simpl; [| reflexivity].
  unfold tidy, Text.strip. apply andb_true_iff. split.
  - apply starts_clean_collapse, starts_clean_rstrip, starts_clean_lstrip.
  - apply single_spaced_collapse. rewrite ends_clean_rstrip.
    now destruct (Text.is_empty _).
Qed.

(** X1. Whatever the cell, the text [clean_text] returns is tidy: it
    does not begin or end with whitespace, and its only whitespace is
    single spaces between other characters. *)
Theorem clean_text_tidy (text : cell) :
  starts_clean (clean_text text) = true
  /\ ends_clean false (clean_text text) = true
  /\ single_spaced false (clean_text text) = true.
Proof.
  pose proof (clean_text_is_tidy text) as H. unfold tidy in H.
  apply andb_true_iff in H as [Hs Ht].
  repeat split; auto. now apply single_spaced_ends_clean.
Qed.

(** X2. Cleaning a text that is already cleaned changes nothing. *)
Theorem clean_text_idempotent (text : cell) :
  clean_text (Some (clean_text text)) = clean_text text.
Proof.
  unfold clean_text at 1. simpl. apply tidy_fixed, clean_text_is_tidy.
Qed.

(* ================================================================== *)
(** * The query builder, continued *)
(* ================================================================== *)

Lemma split_ws_all_space (s : string) :
  Text.all_chars Text.is_space s = true -> split_ws s = [].
Proof.
  induction s as [|c s IH]; simpl; [reflexivity |].
  intros H. apply andb_true_iff in H as [Hc Hs]. rewrite Hc. now apply IH.
Qed.

Lemma split_ws_nil (s : string) :
  split_ws s = [] -> Text.all_chars Text.is_space s = true.
Proof.
  induction s as [|c s IH]; simpl; [reflexivity |].
  destruct (Text.is_space c); [exact IH |].
  destruct (_ && _)%bool; [destruct (split_ws s) |]; discriminate.
Qed.

Lemma split_ws_lstrip (s : string) : split_ws (Text.lstrip s) = split_ws s.
Proof.
  induction s as [|c s IH]; [reflexivity |]. cbn [Text.lstrip].
  destruct (Text.is_space c) eqn:Hc; [| reflexivity].
  rewrite IH. simpl. now rewrite Hc.
Qed.

Lemma concat_word (c : ascii) (w : string) (ws : list string) :
  String.concat " " (String c w :: ws)
  = String c (String.concat " " (w :: ws)).
Proof. destruct ws; reflexivity. Qed.

(** Collapsing a text without trailing whitespace joins its words; a
    space comes first when the text begins with whitespace and no run
    of whitespace is under way. *)
Lemma collapse_rstrip_words (r : string) :
  Text.collapse_spaces true (Text.rstrip r)
  = (if Text.all_chars Text.is_space r then ""
     else String.concat " " (split_ws r))
  /\ Text.collapse_spaces false (Text.rstrip r)
     = (if Text.all_chars Text.is_space r then ""
        else if starts_clean r then String.concat " " (split_ws r)
             else String " " (String.concat " " (split_ws r))).
Proof.
  induction r as [|c r [IHt IHf]]; [split; reflexivity |].
  cbn [Text.rstrip Text.all_chars starts_clean split_ws].
  rewrite is_empty_rstrip.
  destruct (Text.is_space c) eqn:Hc; cbn [andb negb].
  - destruct (Text.all_chars Text.is_space r) eqn:Hr;
      cbn [Text.collapse_spaces]; [split; reflexivity |].
    rewrite Hc, IHt. split; reflexivity.
  - cbn [Text.collapse_spaces]. rewrite Hc, IHf.
    assert (forall P Q : Prop, P -> (P -> Q) -> Q /\ P) as both by tauto.
    apply both; [| intros ->; reflexivity].
    destruct r as [|c' r']; [reflexivity |].
    cbn [starts_clean Text.is_empty negb andb Text.all_chars].
    destruct (Text.is_space c') eqn:Hc'; cbn [negb andb].
    + destruct (Text.all_chars Text.is_space r') eqn:Hr'.
      * rewrite split_ws_all_space; [reflexivity |].
        simpl. now rewrite Hc', Hr'.
      * destruct (split_ws (String c' r')) as [|w ws] eqn:Hw.
        -- apply split_ws_nil in Hw. simpl in Hw. rewrite Hc', Hr' in Hw.
           discriminate.
        -- reflexivity.
    + destruct (split_ws (String c' r')) as [|w ws] eqn:Hw.
      * apply split_ws_nil in Hw. simpl in Hw. rewrite Hc' in Hw.
        discriminate.
      * now rewrite concat_word.
Qed.

(** [clean_text] on a text gives its words joined by single spaces. *)
Lemma clean_text_words (s : string) :
  clean_text (Some s) = String.concat " " (split_ws s).
Proof.
  unfold clean_text, Text.strip. cbn [isna str].
  rewrite (proj2 (collapse_rstrip_words (Text.lstrip s))).
  rewrite all_space_lstrip, starts_clean_lstrip, split_ws_lstrip.
  destruct (Text.all_chars Text.is_space s) eqn:E; [| reflexivity].
  now rewrite (split_ws_all_space _ E).
Qed.

Lemma endswith_spec (s suffix : string) :
  Text.endswith s suffix = true <-> exists pre, s = (pre ++ suffix)%string.
Proof.
  induction s as [|c s IH]; cbn [Text.endswith].
  - rewrite orb_false_r, String.eqb_eq. split.
    + intros <-. now exists "".
    + intros ([|x pre] & H); [exact H | discriminate].
  - rewrite orb_true_iff, String.eqb_eq, IH. split.
    + intros [<- | (pre & ->)]; [now exists "" | now exists (String c pre)].
    + intros ([|x pre] & H); [now left | right].
      injection H as _ ->. now exists pre.
Qed.

Lemma lower_split (e x y : string) :
  Text.lower e = (x ++ y)%string ->
  exists e1 e2, e = (e1 ++ e2)%string /\ Text.lower e1 = x /\ Text.lower e2 = y.
Proof.
  revert e. induction x as [|c x IH]; intros e H.
  - now exists "", e.
  - destruct e as [|a e]; [discriminate |]. simpl in H.
    injection H as Hc H. destruct (IH e H) as (e1 & e2 & -> & H1 & H2).
    exists (String a e1), e2. simpl. now rewrite Hc, H1.
Qed.

Lemma lower_append (a b : string) :
  Text.lower (a ++ b) = (Text.lower a ++ Text.lower b)%string.
Proof. induction a as [|c a IH]; simpl; [reflexivity | now rewrite IH]. Qed.

Lemma lower_char_t (a : ascii) :
  Text.lower_char a = "t"%char <-> a = "t"%char \/ a = "T"%char.
Proof.
  split.
  - destruct a as [[] [] [] [] [] [] [] []]; intros H; vm_compute in H;
      try discriminate; auto.
  - intros [-> | ->]; reflexivity.
Qed.

Lemma lower_char_h (a : ascii) :
  Text.lower_char a = "h"%char <-> a = "h"%char \/ a = "H"%char.
Proof.
  split.
  - destruct a as [[] [] [] [] [] [] [] []]; intros H; vm_compute in H;
      try discriminate; auto.
  - intros [-> | ->]; reflexivity.
Qed.

(** The test of the edition looks at the last two letters, whatever
    their case. *)
Lemma endswith_lower_th (e : string) :
  Text.endswith (Text.lower e) "th" = true <-> ends_with_th e.
Proof.
  rewrite endswith_spec. unfold ends_with_th. split.
  - intros (pre & H). destruct (lower_split _ _ _ H) as (e1 & e2 & -> & _ & H2).
    destruct e2 as [|a [|b [|c e2]]]; try discriminate.
    simpl in H2. injection H2 as Ha Hb.
    exists e1, a, b. split; [reflexivity |].
    split; [now apply lower_char_t | now apply lower_char_h].
  - intros (pre & a & b & -> & Ha & Hb).
    exists (Text.lower pre). rewrite lower_append. simpl.
    apply lower_char_t in Ha. apply lower_char_h in Hb. now rewrite Ha, Hb.
Qed.

(** C5. [create_search_url] collects, in this order, the cleaned title,
    the cleaned author, the year as it is written and, when the stripped
    edition ends with "th" in either case, the stripped edition followed
    by " edition"; a missing or blank field gives nothing; no token
    gives the empty text, and otherwise the tokens joined by one space
    are percent-encoded into the address of the book search.  Cleaning
    a text gives its words joined by single spaces.  The row of the
    specification gives its four tokens, also when it is typed with
    stray blanks and capitals, and a row without fields gives the empty
    text. *)
Theorem create_search_url_spec :
  (forall row title author yr ed,
      getitem row "Book Title" = Returned title ->
      getitem row "Author" = Returned author ->
      getitem row "Yr" = Returned yr ->
      getitem row "Ed" = Returned ed ->
      create_search_url row
      = Returned (search_url_of (query_parts title author yr ed)))
  /\ (forall x, filled x = true <->
                exists s, x = Some s
                          /\ Text.all_chars Text.is_space s = false)
  /\ (forall parts, search_url_of parts = "" <-> parts = [])
  /\ clean_text None = ""
  /\ (forall s, clean_text (Some s) = String.concat " " (split_ws s))
  /\ (forall e, Text.endswith (Text.lower e) "th" = true <-> ends_with_th e)
  /\ query_parts (Some "The Hobbit") (Some "Tolkien") (Some "1997")
                 (Some "4th")
     = ["The Hobbit"; "Tolkien"; "1997"; "4th edition"]
  /\ create_search_url hobbit
     = Returned "https://www.amazon.com/s?k=The%20Hobbit%20Tolkien%201997%204th%20edition&i=stripbooks"
  /\ query_parts (Some ("  The   " ++ String "010" " Hobbit ")%string)
                 (Some " Tolkien") (Some "1997") (Some " 4TH ")
     = ["The Hobbit"; "Tolkien"; "1997"; "4TH edition"]
  /\ create_search_url messy_hobbit
     = Returned "https://www.amazon.com/s?k=The%20Hobbit%20Tolkien%201997%204TH%20edition&i=stripbooks"
  /\ create_search_url blank_book = Returned "".
Proof.
  split; [exact create_search_url_parts |].
  split; [exact filled_iff |].
  split; [exact search_url_of_empty_iff |].
  split; [reflexivity |].
  split; [exact clean_text_words |].
  split; [exact endswith_lower_th |].
  repeat split; reflexivity.
Qed.

(** The law of C5 at the row of the specification typed with stray
    blanks and capitals. *)
Lemma create_search_url_spec_witness :
  getitem messy_hobbit "Book Title"
  = Returned (Some ("  The   " ++ String "010" " Hobbit ")%string)
  /\ getitem messy_hobbit "Author" = Returned (Some " Tolkien")
  /\ getitem messy_hobbit "Yr" = Returned (Some "1997")
  /\ getitem messy_hobbit "Ed" = Returned (Some " 4TH ")
  /\ create_search_url messy_hobbit
     = Returned (search_url_of ["The Hobbit"; "Tolkien"; "1997";
                                "4TH edition"]).
Proof.
  do 4 (split; [reflexivity |]).
  exact (proj1 create_search_url_spec messy_hobbit _ _ _ _
               eq_refl eq_refl eq_refl eq_refl).
Defined.

(* ================================================================== *)
(** * Further properties: identifiers *)
(* ================================================================== *)

Lemma remove_hyphens_spaces_append (a b : string) :
  Text.remove_hyphens_spaces (a ++ b)
  = (Text.remove_hyphens_spaces a ++ Text.remove_hyphens_spaces b)%string.
Proof.
  induction a as [|c a IH]; simpl; [reflexivity |].
  destruct (_ || _)%bool; simpl; now rewrite IH.
Qed.

(** X3. A hyphen or a whitespace character put anywhere in a text does
    not change what [is_valid_isbn] answers. *)
Theorem is_valid_isbn_ignores_separators (a b : string) (c : ascii) :
  (Text.is_hyphen c || Text.is_space c)%bool = true ->
  is_valid_isbn (a ++ String c b) = is_valid_isbn (a ++ b).
Proof.
  intros Hc. unfold is_valid_isbn.
  rewrite !remove_hyphens_spaces_append. simpl. now rewrite Hc.
Qed.

Lemma is_valid_isbn_ignores_separators_witness :
  (Text.is_hyphen "-" || Text.is_space "-")%bool = true
  /\ is_valid_isbn ("0-13" ++ String "-" "4685997")
     = is_valid_isbn ("0-13" ++ "4685997").
Proof.
  split; [reflexivity |].
  exact (is_valid_isbn_ignores_separators "0-13" "4685997" "-" eq_refl).
Defined.

Lemma forallb_removed (p : N -> bool) (t : Unicode.text) :
  forallb p (Unicode.remove_hyphens_spaces t) = true ->
  forallb (fun c => (p c || Unicode.is_hyphen c || Unicode.is_space c)%bool) t
  = true.
Proof.
  unfold Unicode.remove_hyphens_spaces.
  induction t as [|c t IH]; [reflexivity |]. cbn [filter forallb].
  destruct (Unicode.is_hyphen c) eqn:Hh; cbn [orb negb].
  - intros H. rewrite orb_true_r. now apply IH.
  - destruct (Unicode.is_space c) eqn:Hs; cbn [negb].
    + intros H. rewrite orb_true_r. now apply IH.
    + cbn [forallb]. intros H. apply andb_true_iff in H as [Hc H].
      rewrite Hc. now apply IH.
Qed.

Lemma shape10_chars (digit : N -> bool) (r : Unicode.text) :
  shape10 digit r = true ->
  List.length r = 10
  /\ forallb (fun c => (digit c || N.eqb c 88)%bool) r = true.
Proof.
  unfold shape10. intros H.
  apply andb_true_iff in H as [H Hlast]. apply andb_true_iff in H as [Hlen Hd].
  apply Nat.eqb_eq in Hlen. split; [exact Hlen |].
  do 10 (destruct r as [|? r]; [discriminate |]).
  destruct r; [| discriminate].
  cbn [firstn forallb nth] in *.
  repeat (apply andb_true_iff in Hd as [?Hc Hd]).
  repeat (apply andb_true_iff; split); auto;
    try (apply orb_true_iff; left; assumption).
Qed.

Lemma shape13_chars (digit : N -> bool) (r : Unicode.text) :
  shape13 digit r = true ->
  List.length r = 13
  /\ forallb (fun c => (digit c || N.eqb c 88)%bool) r = true.
Proof.
  unfold shape13. intros H. apply andb_true_iff in H as [Hlen Hd].
  apply Nat.eqb_eq in Hlen. split; [exact Hlen |].
  rewrite forallb_forall in *. intros c Hc. now rewrite (Hd c Hc).
Qed.

(** X4. A text that [is_valid_isbn] accepts is made of decimal digits,
    capital X, hyphens and whitespace only, and holds ten or thirteen
    characters besides its hyphens and whitespace. *)
Theorem is_valid_isbn_characters (isbn : Unicode.text) :
  Unicode.is_valid_isbn isbn = true ->
  forallb isbn_char isbn = true
  /\ (List.length (Unicode.remove_hyphens_spaces isbn) = 10
      \/ List.length (Unicode.remove_hyphens_spaces isbn) = 13).
Proof.
  rewrite unicode_is_valid_isbn_shapes. intros H.
  assert (forallb (fun c => (Unicode.is_decimal c || N.eqb c 88)%bool)
                  (Unicode.remove_hyphens_spaces isbn) = true
          /\ (List.length (Unicode.remove_hyphens_spaces isbn) = 10
              \/ List.length (Unicode.remove_hyphens_spaces isbn) = 13))
    as [Hchars Hlen].
  { apply orb_true_iff in H as [H | H].
    - apply shape10_chars in H as [Hl Hc]. auto.
    - apply shape13_chars in H as [Hl Hc]. auto. }
  split; [| exact Hlen].
  apply forallb_removed in Hchars. exact Hchars.
Qed.

Lemma is_valid_isbn_characters_witness :
  Unicode.is_valid_isbn (Unicode.of_string "978-0-13-468599-1") = true
  /\ forallb isbn_char (Unicode.of_string "978-0-13-468599-1") = true.
Proof.
  split; [reflexivity |].
  exact (proj1 (is_valid_isbn_characters
                  (Unicode.of_string "978-0-13-468599-1") eq_refl)).
Defined.

(* ================================================================== *)
(** * Further properties: the address of the search *)
(* ================================================================== *)

Lemma quote_char_safe (c : ascii) :
  Text.all_chars url_safe (Text.quote_char c) = true.
Proof. destruct c as [[] [] [] [] [] [] [] []]; reflexivity. Qed.

Lemma quote_safe (s : string) : Text.all_chars url_safe (Text.quote s) = true.
Proof.
  induction s as [|c s IH]; simpl; [reflexivity |].
  now rewrite all_chars_append, quote_char_safe, IH.
Qed.

Lemma all_chars_excludes (p : ascii -> bool) (c : ascii) (s : string) :
  p c = false -> Text.all_chars p s = true ->
  Text.contains (String c "") s = false.
Proof.
  intros Hc. induction s as [|x s IH]; simpl; [reflexivity |].
  intros H. apply andb_true_iff in H as [Hx Hs].
  rewrite (IH Hs), orb_false_r.
  destruct (ascii_dec c x) as [-> | _]; [congruence | reflexivity].
Qed.

Lemma create_search_url_Returned (row : Series) (u : string) :
  create_search_url row = Returned u ->
  exists title author yr ed,
    u = search_url_of (query_parts title author yr ed).
Proof.
  destruct (getitem row "Book Title") as [title|e] eqn:Ht;
    [| unfold create_search_url; rewrite Ht; discriminate].
  destruct (getitem row "Author") as [author|e] eqn:Ha;
    [| unfold create_search_url; rewrite Ht, Ha; discriminate].
  destruct (getitem row "Yr") as [yr|e] eqn:Hy;
    [| unfold create_search_url; rewrite Ht, Ha, Hy; discriminate].
  destruct (getitem row "Ed") as [ed|e] eqn:He;
    [| unfold create_search_url; rewrite Ht, Ha, Hy, He; discriminate].
  rewrite (create_search_url_parts row _ _ _ _ Ht Ha Hy He).
  intros [= <-]. now exists title, author, yr, ed.
Qed.

(** X5. An address [create_search_url] returns is empty or is the fixed
    beginning, an encoded query and the fixed end, where the encoded
    query holds nothing but letters, digits, [_.-~/] and percent signs:
    no space, ampersand, hash or question mark of a field reaches the
    address. *)
Theorem create_search_url_safe (row : Series) (search_url : string) :
  create_search_url row = Returned search_url ->
  search_url = ""
  \/ exists q,
       search_url = ("https://www.amazon.com/s?k=" ++ q ++ "&i=stripbooks")%string
       /\ Text.all_chars url_safe q = true
       /\ Text.contains " " q = false
       /\ Text.contains "&" q = false
       /\ Text.contains "#" q = false
       /\ Text.contains "?" q = false.
Proof.
  intros H.
  destruct (create_search_url_Returned row search_url H)
    as (title & author & yr & ed & ->).
  destruct (query_parts title author yr ed) as [|p ps]; [now left | right].
  exists (Text.quote (String.concat " " (p :: ps))).
  pose proof (quote_safe (String.concat " " (p :: ps))) as Hq.
  split; [reflexivity |]. split; [exact Hq |].
  repeat split; apply (all_chars_excludes url_safe); auto.
Qed.

Lemma create_search_url_safe_witness :
  create_search_url ampersand_book
  = Returned "https://www.amazon.com/s?k=Dungeons%20%26%20Dragons%20%231%3F&i=stripbooks"
  /\ ("https://www.amazon.com/s?k=Dungeons%20%26%20Dragons%20%231%3F&i=stripbooks"
      = ""
      \/ exists q,
           "https://www.amazon.com/s?k=Dungeons%20%26%20Dragons%20%231%3F&i=stripbooks"
           = ("https://www.amazon.com/s?k=" ++ q ++ "&i=stripbooks")%string
           /\ Text.all_chars url_safe q = true
           /\ Text.contains " " q = false
           /\ Text.contains "&" q = false
           /\ Text.contains "#" q = false
           /\ Text.contains "?" q = false).
Proof.
  split; [reflexivity |].
  exact (create_search_url_safe ampersand_book _ eq_refl).
Defined.

(* ================================================================== *)
(** * Further properties: the fetcher *)
(* ================================================================== *)

(** X6. [make_request] never hands a 503 to its caller: a response it
    returns has another status, and is the answer to the last request
    that was made. *)
Theorem make_request_never_returns_503 (net : network) (url : string)
        (t t' : trace) (r : response) :
  make_request net url t = (Returned r, t') ->
  status_code r <> 503%Z
  /\ requests_made t < requests_made t'
  /\ net (requests_made t' - 1) url = Answers r.
Proof.
  intros H.
  destruct (make_request_eq net url t) as (m & _ & _ & _ & Heq & Hn).
  rewrite H in Heq, Hn. cbn [snd] in Hn. injection Heq as Hr _.
  rewrite Hn. replace (requests_made t + S m - 1) with (requests_made t + m)
    by lia.
  destruct (net (requests_made t + m) url) as [r'|why]; simpl in Hr;
    [| discriminate].
  destruct (Z.eqb (status_code r') 503) eqn:E; [discriminate |].
  injection Hr as <-. apply Z.eqb_neq in E. repeat split; auto. lia.
Qed.

Lemma make_request_never_returns_503_witness :
  exists r t',
    make_request net_503_503_200 "u" [] = (Returned r, t')
    /\ status_code r <> 503%Z
    /\ net_503_503_200 (requests_made t' - 1) "u" = Answers r.
Proof.
  destruct (make_request net_503_503_200 "u" []) as [[r|e] t'] eqn:E;
    [| vm_compute in E; discriminate].
  exists r, t'. split; [reflexivity |].
  destruct (make_request_never_returns_503 _ _ _ _ _ E) as (H1 & _ & H2).
  split; assumption.
Defined.

(** X7. A response whose status is not 503 ends [make_request] at once,
    whatever the status (an error page as well): it is returned after
    one pause and one request, without any retry. *)
Theorem make_request_returns_first_answer (net : network) (url : string)
        (t : trace) (r : response) :
  net (requests_made t) url = Answers r ->
  status_code r <> 503%Z ->
  make_request net url t = (Returned r, t ++ [Sleep 2 7; Get url]).
Proof.
  intros Hr Hs.
  destruct (make_request_eq net url t) as (m & _ & Hall & _ & Heq & _).
  assert (m = 0) as ->.
  { destruct m as [|m]; [reflexivity |].
    specialize (Hall 0 ltac:(lia)). rewrite Nat.add_0_r, Hr in Hall.
    simpl in Hall. apply Z.eqb_eq in Hall. contradiction. }
  rewrite Heq, Nat.add_0_r, Hr. cbn.
  apply Z.eqb_neq in Hs. now rewrite Hs.
Qed.

Lemma make_request_returns_first_answer_witness :
  status_code {| status_code := 404; url := "u"; soup_of_text := [] |}
  <> 503%Z
  /\ make_request (fun _ u => answer 404 u []) "u" []
     = (Returned {| status_code := 404; url := "u"; soup_of_text := [] |},
        [Sleep 2 7; Get "u"]).
Proof.
  split; [discriminate |].
  exact (make_request_returns_first_answer (fun _ u => answer 404 u []) "u" []
           _ eq_refl ltac:(discriminate)).
Defined.

(* ================================================================== *)
(** * Further properties: pacing and budgets *)
(* ================================================================== *)

Lemma paced_nil : paced [].
Proof. intros [|e pre] u post H; discriminate. Qed.

Lemma paced_app (a b : list event) : paced a -> paced b -> paced (a ++ b).
Proof.
  intros Ha Hb pre u post H.
  apply app_eq_app in H as (l & [[-> H] | [-> H]]).
  - destruct l as [|e l].
    + simpl in H. subst b. destruct (Hb [] u post eq_refl) as (p & Hp).
      destruct p; discriminate.
    + injection H as <- ->. apply (Ha pre u l). reflexivity.
  - destruct (Hb l u post H) as (p & ->).
    exists (a ++ p). now rewrite app_assoc.
Qed.

Lemma paced_other (e : event) : is_get e = false -> paced [e].
Proof.
  intros He [|x [|y pre]] u post H; try discriminate.
  injection H as -> _. discriminate.
Qed.

Lemma paced_sleep_get (url : string) : paced [Sleep 2 7; Get url].
Proof.
  intros [|x [|y [|z pre]]] u post H; try discriminate.
  injection H as <- _. now exists [].
Qed.

Lemma paced_attempt (url : string) (o : outcome) :
  paced (attempt_events url o).
Proof.
  unfold attempt_events. apply paced_app; [apply paced_sleep_get |].
  destruct o as [r|why]; [| apply paced_nil].
  destruct (Z.eqb (status_code r) 503); [| apply paced_nil].
  apply (paced_app [_] [_]); now apply paced_other.
Qed.

Lemma paced_retries net url n k m : paced (retries_events net url n k m).
Proof.
  revert n k. induction m as [|m IH]; intros n k; cbn [retries_events].
  - apply paced_nil.
  - apply paced_app; [apply paced_attempt |].
    apply paced_app; [now apply paced_other | apply IH].
Qed.

Lemma uses_weaken {A} (n m : nat) (c : M A) : n <= m -> uses n c -> uses m c.
Proof.
  intros Hnm H t. destruct (H t) as (added & E & Hn & Hp).
  exists added. repeat split; auto. lia.
Qed.

Lemma uses_ret {A} (a : A) : uses 0 (ret a).
Proof. intros t. exists []. rewrite app_nil_r. repeat split; auto using paced_nil. Qed.

Lemma uses_raise {A} (e : exn) : uses 0 (@raise A e).
Proof. intros t. exists []. rewrite app_nil_r. repeat split; auto using paced_nil. Qed.

Lemma uses_lift {A} (r : result A) : uses 0 (lift r).
Proof. intros t. exists []. rewrite app_nil_r. repeat split; auto using paced_nil. Qed.

Lemma uses_print (m : message) : uses 0 (print m).
Proof.
  intros t. exists [Print m]. repeat split; auto.
  now apply paced_other.
Qed.

Lemma uses_bind {A B} (n m : nat) (c : M A) (k : A -> M B) :
  uses n c -> (forall a, uses m (k a)) -> uses (n + m) (bind c k).
Proof.
  intros Hc Hk t. unfold bind.
  destruct (Hc t) as (a1 & E1 & N1 & P1).
  destruct (c t) as [[a|e] t1]; cbn [snd] in E1; subst t1.
  - destruct (Hk a (t ++ a1)) as (a2 & E2 & N2 & P2).
    exists (a1 ++ a2). rewrite E2, app_assoc, requests_made_app.
    repeat split; [lia | now apply paced_app].
  - exists a1. repeat split; [lia | exact P1].
Qed.

Lemma uses_try_except {A} (n m : nat) (body : M A) (handler : exn -> M A) :
  uses n body -> (forall e, uses m (handler e)) ->
  uses (n + m) (try_except body handler).
Proof.
  intros Hc Hk t. unfold try_except.
  destruct (Hc t) as (a1 & E1 & N1 & P1).
  destruct (body t) as [[a|e] t1]; cbn [snd] in E1; subst t1.
  - exists a1. repeat split; [lia | exact P1].
  - destruct (Hk e (t ++ a1)) as (a2 & E2 & N2 & P2).
    exists (a1 ++ a2). rewrite E2, app_assoc, requests_made_app.
    repeat split; [lia | now apply paced_app].
Qed.

Lemma uses_make_request (net : network) (url : string) :
  uses 5 (make_request net url).
Proof.
  intros t.
  destruct (make_request_eq net url t) as (m & Hm & _ & _ & Heq & _).
  rewrite Heq. eexists. split; [reflexivity |]. split.
  - rewrite requests_made_app, requests_made_retries, requests_made_attempt.
    lia.
  - apply paced_app; [apply paced_retries | apply paced_attempt].
Qed.

Lemma uses_print_then {A} (n : nat) (m : message) (c : M A) :
  uses n c -> uses n (print m ;; c).
Proof.
  intros H. apply (uses_bind 0 n); [apply uses_print | intros _; exact H].
Qed.

Lemma uses_get_first_product_link (net : network) (su bt : string) :
  uses 5 (get_first_product_link net su bt).
Proof.
  unfold get_first_product_link.
  apply (uses_try_except 5 0).
  - apply uses_print_then. apply (uses_bind 5 0); [apply uses_make_request |].
    intros resp. destruct (negb _).
    + apply uses_print_then, uses_ret.
    + destruct (selector_loop _ _); apply uses_print_then, uses_ret.
  - intros e. apply uses_print_then, uses_ret.
Qed.

Lemma uses_try_isbn (net : network) (row : Series) :
  uses 5 (try_isbn net row).
Proof.
  unfold try_isbn.
  apply (uses_bind 0 5); [apply uses_lift |]. intros upc.
  destruct (filled upc); [| apply (uses_weaken 0); [lia | apply uses_ret]].
  destruct (is_valid_isbn _);
    [| apply (uses_weaken 0); [lia | apply uses_ret]].
  apply uses_print_then. apply (uses_try_except 5 0).
  - apply (uses_bind 5 0); [apply uses_make_request |].
    intros resp. destruct (_ && _)%bool; apply uses_print_then, uses_ret.
  - intros e. apply uses_print_then, uses_ret.
Qed.

Lemma uses_try_search (net : network) (row : Series) (bt : string) :
  uses 5 (try_search net row bt).
Proof.
  unfold try_search.
  apply (uses_bind 0 5); [apply uses_lift |]. intros su.
  destruct (negb _); [apply uses_get_first_product_link |].
  apply (uses_weaken 0); [lia | apply uses_ret].
Qed.

Lemma uses_process_book (net : network) (row : Series) :
  uses 10 (process_book net row).
Proof.
  unfold process_book.
  apply (uses_bind 0 10); [apply uses_lift |]. intros title.
  apply uses_print_then.
  apply (uses_bind 5 5); [apply uses_try_isbn |]. intros [u|].
  - apply (uses_weaken 0); [lia | apply uses_ret].
  - apply uses_try_search.
Qed.

Lemma uses_apply_rows (net : network) (cols : list string)
      (rows : list (list cell)) (i : nat) :
  uses (10 * List.length rows) (apply_rows net cols i rows).
Proof.
  revert i. induction rows as [|cells rows IH]; intros i; cbn [apply_rows].
  - apply uses_ret.
  - replace (10 * List.length (cells :: rows))
      with (10 + (10 * List.length rows + 0)) by (simpl; lia).
    apply uses_bind; [apply uses_process_book |]. intros link.
    apply uses_bind; [apply IH |]. intros links. apply uses_ret.
Qed.

Lemma uses_df_apply (net : network) (df : DataFrame) :
  uses (10 * List.length (records df)) (df_apply net df).
Proof.
  unfold df_apply. destruct (records df) as [|cells more] eqn:E.
  - apply uses_ret.
  - replace (10 * List.length (cells :: more))
      with (10 * List.length (cells :: more) + 0) by lia.
    apply uses_bind; [apply uses_apply_rows |]. intros links.
    apply uses_ret.
Qed.

(** What a whole run adds to the trace. *)
Lemma process_books_csv_uses (net : network) (df : DataFrame) (t : trace) :
  exists added,
    snd (process_books_csv net df t) = t ++ added
    /\ requests_made added <= 10 * List.length (records df)
    /\ paced added.
Proof.
  unfold process_books_csv.
  set (body := (print _ ;; _)).
  assert (uses (10 * List.length (records df)) body) as Hb.
  { unfold body. do 2 apply uses_print_then.
    replace (10 * List.length (records df))
      with (10 * List.length (records df) + 0) by lia.
    apply uses_bind; [apply uses_df_apply |]. intros value.
    apply (uses_bind 0 0); [apply uses_lift |]. intros df'.
    apply uses_print_then, uses_ret. }
  destruct (Hb t) as (added & E & Hn & Hp).
  destruct (body t) as [[out|e] t1]; cbn [snd] in *; subst t1.
  - now exists added.
  - exists (added ++ [Print (MsgErrorProcessingFile e)]).
    rewrite app_assoc, requests_made_app. repeat split.
    + change (requests_made [Print (MsgErrorProcessingFile e)]) with 0. lia.
    + apply paced_app; [exact Hp | now apply paced_other].
Qed.

(** X8. Whatever the row and the site, [process_book] only adds to the
    trace and makes at most ten requests (five for the direct link and
    five for the search). *)
Theorem process_book_request_budget (net : network) (row : Series)
        (t : trace) :
  exists added,
    snd (process_book net row t) = t ++ added
    /\ requests_made added <= 10.
Proof.
  destruct (uses_process_book net row t) as (added & E & Hn & _).
  now exists added.
Qed.

(** X9. A run over a table of N records makes at most 10 N requests. *)
Theorem process_books_csv_request_budget (net : network) (df : DataFrame)
        (t : trace) :
  requests_made (snd (process_books_csv net df t))
  <= requests_made t + 10 * List.length (records df).
Proof.
  destruct (process_books_csv_uses net df t) as (added & E & Hn & _).
  rewrite E, requests_made_app. lia.
Qed.

(** X10. In all that a run adds to the trace, every request comes right
    after a pause drawn between 2 and 7 seconds: no two requests follow
    each other without it, whatever the site answers. *)
Theorem process_books_csv_paced (net : network) (df : DataFrame)
        (t : trace) :
  exists added,
    snd (process_books_csv net df t) = t ++ added
    /\ forall pre u post,
         added = pre ++ Get u :: post ->
         exists pre', pre = pre' ++ [Sleep 2 7].
Proof.
  destruct (process_books_csv_uses net df t) as (added & E & _ & Hp).
  exists added. split; [exact E | exact Hp].
Qed.

Lemma process_books_csv_paced_witness :
  exists added,
    snd (process_books_csv net_503_503_200 two_books []) = [] ++ added
    /\ forall pre u post,
         added = pre ++ Get u :: post ->
         exists pre', pre = pre' ++ [Sleep 2 7].
Proof. exact (process_books_csv_paced net_503_503_200 two_books []). Defined.

(* ================================================================== *)
(** * Further properties: the extractor *)
(* ================================================================== *)

(** X11. [get_first_product_link] never raises, whatever the site does,
    and what it returns is the address of the search it was given or a
    canonical product link; when the fetch returns a response whose
    status is not 200, it is the address of the search. *)
Theorem get_first_product_link_total (net : network) (su bt : string)
        (t : trace) :
  exists link t',
    get_first_product_link net su bt t = (Returned link, t')
    /\ (link = su \/ canonical_link link)
    /\ (forall resp,
           fst (make_request net su (t ++ [Print (MsgSearching bt)]))
           = Returned resp ->
           status_code resp <> 200%Z -> link = su).
Proof.
  rewrite get_first_product_link_eq. cbv zeta.
  eexists _, _. split; [reflexivity |]. split.
  - destruct (search_outcome_cases su
                (fst (make_request net su (t ++ [Print (MsgSearching bt)]))))
      as [E | (resp & _ & _ & E)]; [now left | right].
    exact (selector_loop_canonical _ _ _ E).
  - intros resp -> Hs. cbn [search_outcome].
    apply Z.eqb_neq in Hs. now rewrite Hs.
Qed.

Lemma get_first_product_link_total_witness :
  exists link t',
    get_first_product_link (fun _ u => answer 404 u []) "s" "Dune" []
    = (Returned link, t')
    /\ link = "s".
Proof.
  destruct (get_first_product_link_total (fun _ u => answer 404 u [])
              "s" "Dune" []) as (link & t' & E & _ & H).
  exists link, t'. split; [exact E |].
  apply (H {| status_code := 404; url := "s"; soup_of_text := [] |});
    [reflexivity | discriminate].
Defined.

Lemma contains_prefix (sub s : string) :
  String.prefix sub s = true -> Text.contains sub s = true.
Proof.
  intros H.
  assert (Text.contains sub s
          = (String.prefix sub s
             || match s with
                | EmptyString => false
                | String _ r => Text.contains sub r
                end)%bool) as -> by (destruct s; reflexivity).
  now rewrite H.
Qed.

Lemma prefix_append (p rest : string) : String.prefix p (p ++ rest) = true.
Proof.
  induction p as [|a p IH]; simpl; [now destruct rest |].
  destruct (ascii_dec a a) as [_ | Hn]; [exact IH | now elim Hn].
Qed.

Lemma contains_append (pre m rest : string) :
  Text.contains m (pre ++ m ++ rest) = true.
Proof.
  induction pre as [|a pre IH].
  - change ("" ++ m ++ rest)%string with (m ++ rest)%string.
    apply contains_prefix, prefix_append.
  - cbn [String.append Text.contains]. rewrite IH. apply orb_true_r.
Qed.

Lemma has_marker_after (pre m rest : string) :
  is_marker m -> has_marker (pre ++ m ++ rest) = true.
Proof.
  unfold has_marker. intros [-> | ->].
  - now rewrite contains_append.
  - rewrite (contains_append pre "/gp/product/"). apply orb_true_r.
Qed.

Lemma re_search_product_at_head (m code rest : string) :
  is_marker m ->
  String.length code = 10 ->
  Text.all_chars Text.is_upper_or_digit code = true ->
  re_search_product (m ++ code ++ rest) = Some code.
Proof.
  intros Hm Hl Ha. rewrite re_search_product_unfold.
  now rewrite (match_product_at_marker _ _ Hm), (take_code_append _ _ Hl Ha).
Qed.

Lemma re_search_product_skip (c : ascii) (r : string) :
  match_product_at (String c r) = None ->
  re_search_product (String c r) = re_search_product r.
Proof. intros H. simpl. now rewrite H. Qed.

(** X12. An href that begins with "/dp/" or "/gp/product/" and ten
    capitals or digits gives the canonical "/dp/" link of these ten
    characters, whatever follows them; and the canonical link itself,
    taken as an href, gives itself back. *)
Theorem links_loop_normalises :
  (forall link more m code rest,
      is_marker m ->
      String.length code = 10 ->
      Text.all_chars Text.is_upper_or_digit code = true ->
      Html.get link "href" "" = (m ++ code ++ rest)%string ->
      links_loop (link :: more) = Some (clean_url_of code))
  /\ (forall link more code,
         String.length code = 10 ->
         Text.all_chars Text.is_upper_or_digit code = true ->
         Html.get link "href" "" = clean_url_of code ->
         links_loop (link :: more) = Some (clean_url_of code)).
Proof.
  split.
  - intros link more m code rest Hm Hl Ha Hh. cbn [links_loop]. rewrite Hh.
    pose proof (has_marker_after "" m (code ++ rest) Hm) as Hk.
    cbn [String.append] in Hk.
    unfold has_marker in Hk. rewrite Hk.
    now rewrite (re_search_product_at_head _ _ _ Hm Hl Ha).
  - intros link more code Hl Ha Hh. cbn [links_loop]. rewrite Hh.
    pose proof (has_marker_after "https://www.amazon.com" "/dp/" code
                  (or_introl eq_refl)) as Hk.
    change (has_marker (clean_url_of code) = true) in Hk.
    unfold has_marker in Hk. rewrite Hk.
    assert (re_search_product (clean_url_of code) = Some code) as ->;
      [| reflexivity].
    unfold clean_url_of. cbn [String.append].
    repeat (rewrite re_search_product_skip by reflexivity).
    rewrite <- (append_empty_r code) at 1.
    exact (re_search_product_at_head "/dp/" code "" (or_introl eq_refl) Hl Ha).
Qed.

Lemma links_loop_normalises_witness :
  (is_marker "/gp/product/"
   /\ String.length "B00ABCDEFG" = 10
   /\ Text.all_chars Text.is_upper_or_digit "B00ABCDEFG" = true)
  /\ links_loop [anchor [] "/gp/product/B00ABCDEFG?tag=x"]
     = Some "https://www.amazon.com/dp/B00ABCDEFG"
  /\ links_loop [anchor [] "https://www.amazon.com/dp/B00ABCDEFG"]
     = Some "https://www.amazon.com/dp/B00ABCDEFG".
Proof.
  split; [split; [now right | split; reflexivity] |].
  split.
  - exact (proj1 links_loop_normalises
                 (anchor [] "/gp/product/B00ABCDEFG?tag=x") []
                 "/gp/product/" "B00ABCDEFG" "?tag=x"
                 (or_intror eq_refl) eq_refl eq_refl eq_refl).
  - exact (proj2 links_loop_normalises
                 (anchor [] "https://www.amazon.com/dp/B00ABCDEFG") []
                 "B00ABCDEFG" eq_refl eq_refl eq_refl).
Defined.

(* ================================================================== *)
(** * Further properties: the batch *)
(* ================================================================== *)

Lemma lookup_combine_None (key : string) (cols : list string)
      (cells : list cell) :
  ~ In key cols -> lookup key (combine cols cells) = None.
Proof.
  revert cells. induction cols as [|c cols IH]; intros cells Hn;
    [reflexivity |].
  destruct cells as [|x cells]; [reflexivity |]. simpl.
  destruct (String.eqb c key) eqn:E.
  - apply String.eqb_eq in E. elim Hn. now left.
  - apply IH. intros H. apply Hn. now right.
Qed.

Lemma process_book_missing_title (net : network) (row : Series) (t : trace) :
  lookup "Book Title" (entries row) = None ->
  process_book net row t = (Raised (KeyError "Book Title"), t).
Proof.
  intros H. unfold process_book, bind, lift, getitem. now rewrite H.
Qed.

(** X13. When the table has records and no column "Book Title", the run
    ends at the first record: the missing column is reported, no request
    is made and nothing is saved. *)
Theorem process_books_csv_missing_title (net : network) (df : DataFrame)
        (t : trace) :
  records df <> [] ->
  ~ In "Book Title" (columns df) ->
  process_books_csv net df t
  = (None,
     t ++ [Print (MsgLoaded (List.length (records df)));
           Print MsgGenerating;
           Print (MsgErrorProcessingFile (KeyError "Book Title"))]).
Proof.
  intros Hrec Hcol. unfold process_books_csv.
  rewrite (df_apply_rows net df Hrec).
  destruct (records df) as [|cells more] eqn:Hr; [contradiction |].
  cbn [apply_rows]. unfold bind, print, emit.
  rewrite process_book_missing_title
    by (apply lookup_combine_None; exact Hcol).
  now rewrite <- !app_assoc.
Qed.

Lemma process_books_csv_missing_title_witness :
  records untitled_table <> []
  /\ ~ In "Book Title" (columns untitled_table)
  /\ fst (process_books_csv net_503_503_200 untitled_table []) = None
  /\ requests_made (snd (process_books_csv net_503_503_200 untitled_table []))
     = 0.
Proof.
  assert (records untitled_table <> []) as Hr by discriminate.
  assert (~ In "Book Title" (columns untitled_table)) as Hc.
  { cbn. intros H. repeat (destruct H as [H | H]; [discriminate |]).
    exact H. }
  split; [exact Hr |]. split; [exact Hc |].
  rewrite (process_books_csv_missing_title net_503_503_200 untitled_table []
             Hr Hc).
  split; reflexivity.
Defined.

Lemma index_of_Some (key : string) (cols : list string) :
  In key cols -> exists i, index_of key cols = Some i.
Proof.
  induction cols as [|c cols IH]; intros Hin; [destruct Hin |].
  simpl. destruct (String.eqb c key) eqn:E; [now exists 0 |].
  destruct Hin as [-> | Hin]; [now rewrite String.eqb_refl in E |].
  destruct (IH Hin) as (i & ->). now exists (S i).
Qed.

(** The cell written at the place of a column is the one found under
    its name. *)
Lemma lookup_replaced (key : string) (cols : list string) (i : nat)
      (v : cell) (cells : list cell) :
  index_of key cols = Some i ->
  List.length cols <= List.length cells ->
  lookup key (combine cols (replace_nth i v cells)) = Some v.
Proof.
  revert i cells. induction cols as [|c cols IH]; intros i cells Hi Hlen;
    [discriminate |].
  destruct cells as [|x cells]; [simpl in Hlen; lia |].
  simpl in Hi. destruct (String.eqb c key) eqn:E.
  - injection Hi as <-. simpl. now rewrite E.
  - destruct (index_of key cols) as [j|] eqn:Hj; [| discriminate].
    injection Hi as <-. simpl. rewrite E.
    apply IH; [reflexivity | simpl in Hlen; lia].
Qed.

(** The cells under the other names are the ones that were there. *)
Lemma lookup_not_replaced (key c : string) (cols : list string) (i : nat)
      (v : cell) (cells : list cell) :
  index_of key cols = Some i ->
  c <> key ->
  lookup c (combine cols (replace_nth i v cells))
  = lookup c (combine cols cells).
Proof.
  revert i cells. induction cols as [|c0 cols IH]; intros i cells Hi Hc;
    [discriminate |].
  destruct cells as [|x cells]; [now destruct i |].
  simpl in Hi. destruct (String.eqb c0 key) eqn:E.
  - injection Hi as <-. simpl. apply String.eqb_eq in E. subst c0.
    assert (String.eqb key c = false) as ->; [| reflexivity].
    apply String.eqb_neq. congruence.
  - destruct (index_of key cols) as [j|] eqn:Hj; [| discriminate].
    injection Hi as <-. simpl.
    destruct (String.eqb c0 c); [reflexivity |]. now apply IH.
Qed.

(** X14. When the table has at least one record and already has a
    column "Amazon_Link" (a saved output read again), the run keeps the columns and the number of
    rows; in every row the cell under "Amazon_Link" becomes the link
    [process_book] gave for the row, and the cell under every other
    column is the one that was there. *)
Theorem link_column_replaced_when_present :
  forall net df t,
    well_formed df ->
    records df <> [] ->
    In "Amazon_Link" (columns df) ->
    exists out t' links,
      process_books_csv net df t = (Some out, t')
      /\ fst (apply_rows net (columns df) 0 (records df)
                         (t ++ [Print (MsgLoaded (List.length (records df)));
                                Print MsgGenerating]))
         = Returned links
      /\ columns out = columns df
      /\ List.length (records out) = List.length (records df)
      /\ forall i cells,
           nth_error (records df) i = Some cells ->
           exists link cells',
             nth_error links i = Some link
             /\ nth_error (records out) i = Some cells'
             /\ getitem (row_of (columns out) i cells') "Amazon_Link"
                = Returned (Some link)
             /\ forall c,
                  c <> "Amazon_Link" ->
                  getitem (row_of (columns out) i cells') c
                  = getitem (row_of (columns df) i cells) c.
Proof.
  intros net df t Hwf Hne Hin.
  destruct (process_books_csv_saved net df t Hwf Hne)
    as (links & t' & Happly & Hlen & Hsaved).
  exists (setitem df "Amazon_Link" (map Some links)), t', links.
  split; [exact Hsaved |]. split; [exact Happly |].
  destruct (index_of_Some _ _ Hin) as (k & Hk).
  unfold setitem. rewrite Hk. cbn [columns records].
  split; [reflexivity |]. split.
  - rewrite length_map, length_combine, length_map, Hlen. lia.
  - intros i cells Hi.
    destruct (nth_error_combine (records df) (map Some links) i cells)
      as (y & Hy & Hc); [now rewrite length_map | exact Hi |].
    rewrite nth_error_map in Hy.
    destruct (nth_error links i) as [link|] eqn:Hl; [| discriminate].
    injection Hy as <-.
    exists link, (replace_nth k (Some link) cells).
    split; [reflexivity |]. split; [now rewrite (map_nth_error _ _ _ Hc) |].
    unfold getitem, row_of. cbn [entries]. split.
    + rewrite (lookup_replaced _ _ _ _ _ Hk); [reflexivity |].
      destruct Hwf as [_ Hshape].
      rewrite (Hshape cells); [lia | eapply nth_error_In; exact Hi].
    + intros c Hc'. now rewrite (lookup_not_replaced _ _ _ _ _ _ Hk Hc').
Qed.

Lemma link_column_replaced_when_present_witness :
  well_formed rerun_table
  /\ records rerun_table <> []
  /\ In "Amazon_Link" (columns rerun_table)
  /\ exists out t',
       process_books_csv net_down rerun_table [] = (Some out, t')
       /\ out = {| columns := required_columns ++ ["Amazon_Link"];
                   records := [[None; None; None; None; None; Some ""]] |}.
Proof.
  assert (well_formed rerun_table) as Hwf.
  { split.
    - intros c Hc. apply in_or_app. now left.
    - intros cells [<- | []]. reflexivity. }
  assert (In "Amazon_Link" (columns rerun_table)) as Hin.
  { apply in_or_app. right. now left. }
  assert (records rerun_table <> []) as Hne by discriminate.
  split; [exact Hwf |]. split; [exact Hne |]. split; [exact Hin |].
  destruct (link_column_replaced_when_present net_down rerun_table []
              Hwf Hne Hin) as (out & t' & links & E & _).
  exists out, t'. split; [exact E |].
  vm_compute in E. now injection E as <- _.
Defined.

(* ================================================================== *)
(** * Further properties: the summary *)
(* ================================================================== *)

Lemma filter_length_le_filter {A} (p q : A -> bool) (l : list A) :
  (forall x, p x = true -> q x = true) ->
  List.length (filter p l) <= List.length (filter q l).
Proof.
  intros Hpq. induction l as [|x l IH]; simpl; [lia |].
  destruct (p x) eqn:Hp.
  - rewrite (Hpq _ Hp). simpl. lia.
  - destruct (q x); simpl; lia.
Qed.

Lemma contains_nonempty (sub s : string) :
  sub <> "" -> Text.contains sub s = true -> Nat.ltb 0 (String.length s) = true.
Proof.
  intros Hsub. destruct s as [|c s]; [| reflexivity].
  destruct sub; [contradiction | discriminate].
Qed.

Lemma failed_count (titles : list cell) (links : list string) :
  List.length titles = List.length links ->
  List.length (filter (fun tl : cell * string =>
                         Nat.eqb (String.length (snd tl)) 0)
                      (combine titles links))
  + List.length (filter (fun link => Nat.ltb 0 (String.length link)) links)
  = List.length links.
Proof.
  revert links.
  induction titles as [|x titles IH]; intros [|l links] Hlen;
    try discriminate; [reflexivity |].
  injection Hlen as Hlen. specialize (IH links Hlen).
  cbn [combine filter snd].
  destruct l as [|c l]; cbn; cbn in IH; lia.
Qed.

Lemma failed_books_length (titles : list cell) (links : list string) :
  List.length titles = List.length links ->
  Z.of_nat (List.length (failed_books titles links))
  = (total_books links - books_with_links links)%Z.
Proof.
  intros Hlen. pose proof (failed_count titles links Hlen) as H.
  unfold failed_books, total_books, books_with_links, count_links.
  rewrite length_map. lia.
Qed.

(** X15. The three numbers the summary prints after the total (direct
    product links, search links, failures) are never negative and add
    up to the total; and one title is listed for every failure. *)
Theorem summary_counts_add_up (titles : list cell) (links : list string) :
  List.length titles = List.length links ->
  let '(direct, search, failed) := summary_counts links in
  (0 <= direct /\ 0 <= search /\ 0 <= failed
   /\ direct + search + failed = total_books links
   /\ Z.of_nat (List.length (failed_books titles links)) = failed)%Z.
Proof.
  intros Hlen. cbv beta iota delta [summary_counts].
  pose proof (failed_books_length titles links Hlen) as Hf.
  unfold books_with_product_links, books_with_links, total_books,
    count_links in *.
  pose proof (filter_length_le_filter (Text.contains "/dp/")
                (fun link => Nat.ltb 0 (String.length link)) links
                (fun s => contains_nonempty "/dp/" s ltac:(discriminate))).
  pose proof (filter_length
                (fun link : string => Nat.ltb 0 (String.length link)) links).
  repeat split; lia.
Qed.

Lemma summary_counts_add_up_witness :
  List.length [Some "The Hobbit"; Some "Dune"; None]
  = List.length ["https://www.amazon.com/dp/B00ABCDEFG";
                 "https://www.amazon.com/s?k=Dune&i=stripbooks"; ""]
  /\ let '(direct, search, failed) :=
       summary_counts ["https://www.amazon.com/dp/B00ABCDEFG";
                       "https://www.amazon.com/s?k=Dune&i=stripbooks"; ""] in
     (0 <= direct /\ 0 <= search /\ 0 <= failed
      /\ direct + search + failed
         = total_books ["https://www.amazon.com/dp/B00ABCDEFG";
                        "https://www.amazon.com/s?k=Dune&i=stripbooks"; ""]
      /\ Z.of_nat
           (List.length
              (failed_books
                 [Some "The Hobbit"; Some "Dune"; None]
                 ["https://www.amazon.com/dp/B00ABCDEFG";
                  "https://www.amazon.com/s?k=Dune&i=stripbooks"; ""]))
         = failed)%Z.
Proof.
  split; [reflexivity |].
  exact (summary_counts_add_up
           [Some "The Hobbit"; Some "Dune"; None]
           ["https://www.amazon.com/dp/B00ABCDEFG";
            "https://www.amazon.com/s?k=Dune&i=stripbooks"; ""]
           eq_refl).
Defined.

(* ================================================================== *)
(** * Further properties: the selectors *)
(* ================================================================== *)

(** A tag [select_from] gives is one the selector matches, under some
    ancestors. *)
Lemma select_from_matches (sel : Html.selector) :
  forall (n : Html.node) (anc : list Html.head) (link : Html.node),
    In link (Html.select_from sel anc n) ->
    exists name classes attrs children anc',
      link = Html.Tag name classes attrs children
      /\ Html.matches sel anc' (name, classes, attrs) = true.
Proof.
  fix IH 1. intros [name classes attrs children | text] anc link H.
  - cbn [Html.select_from] in H. apply in_app_or in H as [H | H].
    + destruct (Html.matches sel anc (name, classes, attrs)) eqn:E;
        [| destruct H].
      destruct H as [<- | []]. now exists name, classes, attrs, children, anc.
    + revert H. generalize ((name, classes, attrs) :: anc). intros anc1.
      induction children as [|k kids IHk]; intros H; [destruct H |].
      cbn [flat_map] in H. apply in_app_or in H as [H | H].
      * exact (IH k anc1 link H).
      * exact (IHk H).
  - destruct H.
Qed.

Lemma matches_subject (sel : Html.selector) (subject : Html.compound)
      (anc : list Html.head) (h : Html.head) :
  Html.matches (sel ++ [subject]) anc h = true ->
  Html.matches_compound subject h = true.
Proof.
  unfold Html.matches. rewrite rev_unit.
  intros H. now apply andb_true_iff in H as [H _].
Qed.

(** X16. Every candidate any of the five selectors yields is an [a]
    element: extraction never reads the href of another kind of tag. *)
Theorem candidates_are_anchors (soup : Html.document) (sel : Html.selector)
        (link : Html.node) :
  In sel selectors ->
  In link (Html.select sel soup) ->
  exists classes attrs children,
    link = Html.Tag "a" classes attrs children.
Proof.
  intros Hsel Hin. unfold Html.select in Hin.
  apply in_flat_map in Hin as (n & _ & Hin).
  destruct (select_from_matches sel n [] link Hin)
    as (name & classes & attrs & children & anc & -> & Hm).
  assert (exists front subject,
             sel = front ++ [subject] /\ Html.sel_tag subject = "a")
    as (front & subject & -> & Htag).
  { unfold selectors in Hsel. cbn in Hsel.
    destruct Hsel as [<- | [<- | [<- | [<- | [<- | []]]]]].
    - now exists [], (Html.tag_classes "a" ["a-link-normal"; "s-no-outline"]).
    - now exists [], (Html.tag_classes "a" ["a-link-normal"; "a-text-normal"]).
    - now exists [Html.tag_classes "div" ["s-result-item"]; Html.tag_only "h2"],
        (Html.tag_only "a").
    - now exists [ {| Html.sel_tag := "div"; Html.sel_classes := [];
                      Html.sel_attrs :=
                        [("data-component-type", "s-search-result")] |};
                   Html.tag_only "h2"], (Html.tag_only "a").
    - now exists [Html.tag_classes "div" ["s-result-item"]],
        (Html.tag_classes "a" ["a-link-normal"]). }
  apply matches_subject in Hm. unfold Html.matches_compound in Hm.
  rewrite Htag in Hm. apply andb_true_iff in Hm as [Hm _].
  apply andb_true_iff in Hm as [Hm _]. apply String.eqb_eq in Hm. subst name.
  now exists classes, attrs, children.
Qed.

Lemma candidates_are_anchors_witness :
  In (nth 2 selectors []) selectors
  /\ In (anchor [] "/Title/dp/B00ABCDEFG/ref=sr_1")
        (Html.select (nth 2 selectors []) sample_page)
  /\ exists classes attrs children,
       anchor [] "/Title/dp/B00ABCDEFG/ref=sr_1"
       = Html.Tag "a" classes attrs children.
Proof.
  assert (In (nth 2 selectors []) selectors) as Hs.
  { cbn. right. right. left. reflexivity. }
  assert (In (anchor [] "/Title/dp/B00ABCDEFG/ref=sr_1")
             (Html.select (nth 2 selectors []) sample_page)) as Hl.
  { vm_compute. left. reflexivity. }
  split; [exact Hs |]. split; [exact Hl |].
  exact (candidates_are_anchors sample_page _ _ Hs Hl).
Defined.

(* ================================================================== *)
(** * Further properties: where the requests go *)
(* ================================================================== *)

Section Adds.

Variable P : event -> Prop.

Lemma adds_nothing {A} (c : M A) :
  (forall t, snd (c t) = t) -> adds P c.
Proof.
  intros H t. exists []. rewrite app_nil_r. split; [apply H | constructor].
Qed.

Lemma adds_print (m : message) : P (Print m) -> adds P (print m).
Proof.
  intros H t. exists [Print m]. split; [reflexivity | now constructor].
Qed.

Lemma adds_bind {A B} (c : M A) (k : A -> M B) :
  adds P c -> (forall a, adds P (k a)) -> adds P (bind c k).
Proof.
  intros Hc Hk t. unfold bind.
  destruct (Hc t) as (a1 & E1 & P1).
  destruct (c t) as [[a|e] t1]; cbn [snd] in E1; subst t1.
  - destruct (Hk a (t ++ a1)) as (a2 & E2 & P2).
    exists (a1 ++ a2). rewrite E2, app_assoc. split; [reflexivity |].
    now apply Forall_app.
  - now exists a1.
Qed.

Lemma adds_try_except {A} (body : M A) (handler : exn -> M A) :
  adds P body -> (forall e, adds P (handler e)) ->
  adds P (try_except body handler).
Proof.
  intros Hc Hk t. unfold try_except.
  destruct (Hc t) as (a1 & E1 & P1).
  destruct (body t) as [[a|e] t1]; cbn [snd] in E1; subst t1.
  - now exists a1.
  - destruct (Hk e (t ++ a1)) as (a2 & E2 & P2).
    exists (a1 ++ a2). rewrite E2, app_assoc. split; [reflexivity |].
    now apply Forall_app.
Qed.

End Adds.

Lemma on_site_attempt (url : string) (o : outcome) :
  String.prefix "https://www.amazon.com/" url = true ->
  Forall on_site (attempt_events url o).
Proof.
  intros H. unfold attempt_events. apply Forall_app. split.
  - repeat constructor. exact H.
  - destruct o as [r|why]; [| constructor].
    destruct (Z.eqb (status_code r) 503); repeat constructor.
Qed.

Lemma on_site_retries net url n k m :
  String.prefix "https://www.amazon.com/" url = true ->
  Forall on_site (retries_events net url n k m).
Proof.
  intros H. revert n k. induction m as [|m IH]; intros n k;
    cbn [retries_events]; [constructor |].
  apply Forall_app. split; [now apply on_site_attempt |].
  apply Forall_app. split; [repeat constructor | apply IH].
Qed.

Lemma adds_make_request (net : network) (url : string) :
  String.prefix "https://www.amazon.com/" url = true ->
  adds on_site (make_request net url).
Proof.
  intros H t.
  destruct (make_request_eq net url t) as (m & _ & _ & _ & Heq & _).
  rewrite Heq. eexists. split; [reflexivity |].
  apply Forall_app. split; [now apply on_site_retries | now apply on_site_attempt].
Qed.

Ltac adds_step :=
  first [ apply adds_print; exact I
        | apply adds_nothing; intros; reflexivity
        | apply adds_bind; [| intros ? ]
        | apply adds_try_except; [| intros ? ] ].

Lemma adds_get_first_product_link (net : network) (su bt : string) :
  String.prefix "https://www.amazon.com/" su = true ->
  adds on_site (get_first_product_link net su bt).
Proof.
  intros H. unfold get_first_product_link.
  adds_step.
  - adds_step; [adds_step |]. adds_step; [now apply adds_make_request |].
    destruct (negb _).
    + adds_step; adds_step.
    + destruct (selector_loop _ _); adds_step; adds_step.
  - adds_step; adds_step.
Qed.

Lemma adds_try_isbn (net : network) (row : Series) :
  adds on_site (try_isbn net row).
Proof.
  unfold try_isbn. adds_step; [adds_step |].
  destruct (filled _); [| adds_step].
  destruct (is_valid_isbn _); [| adds_step].
  adds_step; [adds_step |]. adds_step.
  - adds_step; [now apply adds_make_request |].
    destruct (_ && _)%bool; adds_step; adds_step.
  - adds_step; adds_step.
Qed.

Lemma search_url_prefix (row : Series) (su : string) :
  create_search_url row = Returned su ->
  Text.is_empty su = false ->
  String.prefix "https://www.amazon.com/" su = true.
Proof.
  intros H He.
  destruct (create_search_url_Returned row su H)
    as (title & author & yr & ed & ->).
  destruct (query_parts title author yr ed); [discriminate | reflexivity].
Qed.

Lemma adds_try_search (net : network) (row : Series) (bt : string) :
  adds on_site (try_search net row bt).
Proof.
  unfold try_search, bind, lift. intros t.
  destruct (create_search_url row) as [su|e] eqn:E.
  - destruct (Text.is_empty su) eqn:He; cbn [negb].
    + exists []. rewrite app_nil_r. split; [reflexivity | constructor].
    + apply adds_get_first_product_link.
      exact (search_url_prefix row su E He).
  - exists []. rewrite app_nil_r. split; [reflexivity | constructor].
Qed.

Lemma adds_process_book (net : network) (row : Series) :
  adds on_site (process_book net row).
Proof.
  unfold process_book. adds_step; [adds_step |].
  adds_step; [adds_step |]. apply adds_bind; [apply adds_try_isbn |].
  intros [u|]; [adds_step | apply adds_try_search].
Qed.

Lemma adds_apply_rows (net : network) (cols : list string)
      (rows : list (list cell)) (i : nat) :
  adds on_site (apply_rows net cols i rows).
Proof.
  revert i. induction rows as [|cells rows IH]; intros i; cbn [apply_rows].
  - adds_step.
  - adds_step; [apply adds_process_book |].
    adds_step; [apply IH | adds_step].
Qed.

(** X17. Every request a run makes asks for an address that begins with
    "https://www.amazon.com/": no other host is ever contacted, whatever
    the table holds and whatever the site answers. *)
Theorem process_books_csv_stays_on_site (net : network) (df : DataFrame)
        (t : trace) :
  exists added,
    snd (process_books_csv net df t) = t ++ added
    /\ forall u, In (Get u) added ->
                 String.prefix "https://www.amazon.com/" u = true.
Proof.
  unfold process_books_csv.
  set (body := (print _ ;; _)).
  assert (adds on_site body) as Hb.
  { unfold body. adds_step; [adds_step |]. adds_step; [adds_step |].
    apply adds_bind.
    - unfold df_apply. destruct (records df); [adds_step |].
      adds_step; [apply adds_apply_rows | adds_step].
    - intros value. adds_step; [adds_step |]. adds_step; adds_step. }
  destruct (Hb t) as (added & E & Hp).
  destruct (body t) as [[out|e] t1]; cbn [snd] in *; subst t1.
  - exists added. split; [reflexivity |]. intros u Hu.
    rewrite Forall_forall in Hp. exact (Hp _ Hu).
  - exists (added ++ [Print (MsgErrorProcessingFile e)]).
    rewrite app_assoc. split; [reflexivity |]. intros u Hu.
    apply in_app_or in Hu as [Hu | [Hu | []]]; [| discriminate].
    rewrite Forall_forall in Hp. exact (Hp _ Hu).
Qed.

Lemma process_books_csv_stays_on_site_witness :
  exists added,
    snd (process_books_csv net_503_503_200 two_books []) = [] ++ added
    /\ forall u, In (Get u) added ->
                 String.prefix "https://www.amazon.com/" u = true.
Proof. exact (process_books_csv_stays_on_site net_503_503_200 two_books []). Defined.

(* ================================================================== *)
(** * Further properties: the tokens of the query *)
(* ================================================================== *)

Lemma is_empty_collapse (s : string) :
  Text.is_empty (Text.collapse_spaces false s) = Text.is_empty s.
Proof.
  destruct s as [|c s]; [reflexivity |]. simpl.
  now destruct (Text.is_space c).
Qed.

(** A field counts exactly when its cleaned text is not empty. *)
Lemma filled_clean_text (x : cell) :
  filled x = negb (Text.is_empty (clean_text x)).
Proof.
  unfold filled, clean_text. destruct x as [s|]; simpl; [| reflexivity].
  now rewrite is_empty_collapse.
Qed.

Lemma append_not_empty (a b : string) : b <> "" -> (a ++ b)%string <> "".
Proof. destruct a; simpl; [auto | discriminate]. Qed.

(** X18. No token of a query is empty: a field that is missing or blank
    gives no token at all, and every token that is given holds at least
    one character. *)
Theorem query_parts_not_empty (title author yr ed : cell) (part : string) :
  In part (query_parts title author yr ed) -> part <> "".
Proof.
  unfold query_parts, part_if. intros H.
  assert (forall x, filled x = true -> clean_text x <> "") as Hclean.
  { intros x Hx E. rewrite filled_clean_text, E in Hx. discriminate. }
  assert (forall x, filled x = true -> str x <> "") as Hstr.
  { intros x Hx E. unfold filled in Hx. rewrite E in Hx.
    now rewrite andb_false_r in Hx. }
  repeat (apply in_app_or in H as [H | H]).
  - destruct (filled title) eqn:E; [| destruct H].
    destruct H as [<- | []]. now apply Hclean.
  - destruct (filled author) eqn:E; [| destruct H].
    destruct H as [<- | []]. now apply Hclean.
  - destruct (filled yr) eqn:E; [| destruct H].
    destruct H as [<- | []]. now apply Hstr.
  - destruct (_ && _)%bool; [| destruct H].
    destruct H as [<- | []]. apply append_not_empty. discriminate.
Qed.

Lemma query_parts_not_empty_witness :
  In "Tolkien" (query_parts (Some "  ") (Some " Tolkien ") None (Some "2nd"))
  /\ "Tolkien" <> "".
Proof.
  assert (In "Tolkien"
             (query_parts (Some "  ") (Some " Tolkien ") None (Some "2nd")))
    as H by (vm_compute; now left).
  split; [exact H |].
  exact (query_parts_not_empty _ _ _ _ _ H).
Defined.

(* ================================================================== *)
(** * Further properties: the table without records *)
(* ================================================================== *)

Lemma well_formed_columns (df : DataFrame) :
  well_formed df -> List.length (columns df) <> 1.
Proof.
  intros [Hreq _].
  assert (In "Book Title" (columns df)) as H1 by (apply Hreq; now left).
  assert (In "Author" (columns df)) as H2
    by (apply Hreq; right; now left).
  destruct (columns df) as [|x [|y l]]; [destruct H1 | | discriminate].
  destruct H1 as [-> | []]. destruct H2 as [H2 | []]. discriminate.
Qed.

(** X19. On a table that has the columns the script reads and no record,
    the run makes no request and saves nothing: what [apply] hands back
    is a frame, the assignment of the column raises [ValueError], and
    the outer handler reports it. *)
Theorem process_books_csv_empty_table (net : network) (df : DataFrame)
        (t : trace) :
  well_formed df ->
  records df = [] ->
  exists msg,
    process_books_csv net df t
    = (None,
       t ++ [Print (MsgLoaded 0); Print MsgGenerating;
             Print (MsgErrorProcessingFile (ValueError msg))]).
Proof.
  intros Hwf Hrec. apply well_formed_columns in Hwf.
  apply Nat.eqb_neq in Hwf.
  unfold process_books_csv, df_apply. rewrite Hrec.
  unfold bind, print, emit, ret, lift, setitem_applied. rewrite Hwf.
  eexists. cbn [length]. now rewrite <- !app_assoc.
Qed.

Lemma process_books_csv_empty_table_witness :
  well_formed empty_table
  /\ records empty_table = []
  /\ fst (process_books_csv net_503_503_200 empty_table []) = None
  /\ requests_made (snd (process_books_csv net_503_503_200 empty_table []))
     = 0.
Proof.
  assert (well_formed empty_table) as Hwf.
  { split; [intros c Hc; exact Hc | intros cells []]. }
  split; [exact Hwf |]. split; [reflexivity |].
  destruct (process_books_csv_empty_table net_503_503_200 empty_table []
              Hwf eq_refl) as (msg & E).
  rewrite E. split; reflexivity.
Defined.
